(** * ptnotes: the project-scoped data-access layer (src/ptn/database.py)

    A shallow embedding of the Python classes [Database], [ItemDatabase],
    [AttackDatabase], [HostDatabase], [ImportDatabase], [ScanDatabase] and
    [ProjectDatabase].  Every method is a computation in a small
    state-and-exception monad over a [world]: the SQLite files on disk, the
    cursor of the last statement, the error-level log, the outcomes of the
    storage engine and of [random.choice].

    Each SQL statement of the source is translated to the function on the
    file's tables that SQLite computes for it; the statement text is quoted
    next to its translation. *)

From Stdlib Require Import ZArith List String Ascii Bool Lia DecimalString OrdersEx Sorted
  Permutation.
From stdpp Require Import gmap strings.
Import ListNotations.
Open Scope Z_scope.
Open Scope string_scope.

(** ** Python and SQLite values *)

(** A column value or a Python scalar: [None]/NULL, an integer, a string. *)
Inductive value :=
  | VNone
  | VInt (n : Z)
  | VStr (s : string).

(** [sqlite3.Row]: the selected columns, by name, in select order. *)
Definition Row := list (string * value).

(** What [get_project] hands back: a row, [None], or the tuple of its
    failure branch. *)
Inductive pyobj :=
  | PyNone
  | PyRow (r : Row)
  | PyTuple (l : list value).

(** The exceptions that escape or are caught in the modelled methods. *)
Inductive exn :=
  | TypeError
  | ValueError
  | IndexError
  | AttributeError
  | OperationalError
  | AssertionError (msg : string)
  | DatabaseException (msg : string).

Definition of_option (o : option string) : value :=
  match o with
  | Some s => VStr s
  | None => VNone
  end.

(** ['{0}'.format(n)] for an integer. *)
Definition format_int (n : Z) : string := NilZero.string_of_int (Z.to_int n).

(** ** Tables *)

Record host := { host_id : Z; host_ip : string; host_note : option string }.

Record item := {
  item_id : Z; item_ip : string; item_port : Z; item_protocol : string;
  item_note : string; item_hash : string }.

Record attack := {
  attack_id : Z; attack_name : string; attack_description : string;
  attack_items : string; attack_note : string }.

Record import := { import_id : Z; import_filename : string }.

Record project := {
  project_id : Z; project_name : string; project_note : option string;
  project_dbfile : string }.

(** A table with an [integer primary key autoincrement]: its rows in rowid
    order and the largest rowid ever handed out (sqlite_sequence). *)
Record table (R : Type) := { rows : list R; last_rowid : Z }.
Arguments rows {R} _.
Arguments last_rowid {R} _.

Definition empty_table {R} : table R := {| rows := []; last_rowid := 0 |}.

(** The rowid AUTOINCREMENT picks: one more than the largest rowid that is
    or ever was in the table. *)
Definition next_id {R} (key : R -> Z) (t : table R) : Z :=
  1 + fold_right Z.max (last_rowid t) (map key (rows t)).

Definition insert_row {R} (key : R -> Z) (mk : Z -> R) (t : table R) : table R :=
  let i := next_id key t in {| rows := rows t ++ [mk i]; last_rowid := i |}.

Definition update_rows {R} (f : R -> R) (t : table R) : table R :=
  {| rows := map f (rows t); last_rowid := last_rowid t |}.

Definition delete_rows {R} (p : R -> bool) (t : table R) : table R :=
  {| rows := List.filter (fun r => negb (p r)) (rows t); last_rowid := last_rowid t |}.

(** One SQLite file: the tables that have been created in it so far. *)
Record sqlite_file := {
  hosts : option (table host);
  items : option (table item);
  attacks : option (table attack);
  imports : option (table import);
  projects : option (table project) }.

Definition empty_file : sqlite_file :=
  {| hosts := None; items := None; attacks := None; imports := None;
     projects := None |}.

Definition set_hosts (t : table host) (f : sqlite_file) : sqlite_file :=
  {| hosts := Some t; items := items f; attacks := attacks f;
     imports := imports f; projects := projects f |}.
Definition set_items (t : table item) (f : sqlite_file) : sqlite_file :=
  {| hosts := hosts f; items := Some t; attacks := attacks f;
     imports := imports f; projects := projects f |}.
Definition set_attacks (t : table attack) (f : sqlite_file) : sqlite_file :=
  {| hosts := hosts f; items := items f; attacks := Some t;
     imports := imports f; projects := projects f |}.
Definition set_imports (t : table import) (f : sqlite_file) : sqlite_file :=
  {| hosts := hosts f; items := items f; attacks := attacks f;
     imports := Some t; projects := projects f |}.
Definition set_projects (t : table project) (f : sqlite_file) : sqlite_file :=
  {| hosts := hosts f; items := items f; attacks := attacks f;
     imports := imports f; projects := Some t |}.

(** ** The world and the monad *)

(** [files]: the SQLite files on disk, by path.  [cur]: the rows left in the
    cursor by the last successful statement.  [errlog]: the records logged
    at error level, oldest first ([log.debug] records are not modelled).
    [faults]: for each coming call of the storage engine, a connect or a
    statement, whether it raises [sqlite3.Error] for a reason outside the
    call (the file cannot be opened, I/O, locking); an exhausted list is a
    healthy engine.  [rng]: the coming outcomes of
    [random.choice], as positions. *)
Record world := {
  files : gmap string sqlite_file;
  cur : list Row;
  errlog : list string;
  faults : list bool;
  rng : list nat }.

Definition set_files (fs : gmap string sqlite_file) (w : world) : world :=
  {| files := fs; cur := cur w; errlog := errlog w; faults := faults w;
     rng := rng w |}.
Definition set_cur (c : list Row) (w : world) : world :=
  {| files := files w; cur := c; errlog := errlog w; faults := faults w;
     rng := rng w |}.
Definition set_faults (fl : list bool) (w : world) : world :=
  {| files := files w; cur := cur w; errlog := errlog w; faults := fl;
     rng := rng w |}.
Definition set_rng (r : list nat) (w : world) : world :=
  {| files := files w; cur := cur w; errlog := errlog w; faults := faults w;
     rng := r |}.
Definition add_errlog (m : string) (w : world) : world :=
  {| files := files w; cur := cur w; errlog := errlog w ++ [m];
     faults := faults w; rng := rng w |}.

Inductive outcome (A : Type) :=
  | Ret (a : A)
  | Raise (e : exn).
Arguments Ret {A} _.
Arguments Raise {A} _.

Definition M (A : Type) : Type := world -> outcome A * world.

Definition ret {A} (a : A) : M A := fun w => (Ret a, w).
Definition raise {A} (e : exn) : M A := fun w => (Raise e, w).
Definition bind {A B} (m : M A) (k : A -> M B) : M B :=
  fun w =>
    match m w with
    | (Ret a, w') => k a w'
    | (Raise e, w') => (Raise e, w')
    end.

Notation "x <- m ;; k" := (bind m (fun x => k))
  (at level 90, m at level 80, right associativity).
Notation "m ;;; k" := (bind m (fun _ => k))
  (at level 90, right associativity).

(** [try: m except DatabaseException: h]. *)
Definition except_DatabaseException {A} (m : M A) (h : M A) : M A :=
  fun w =>
    match m w with
    | (Raise (DatabaseException _), w') => h w'
    | r => r
    end.

(** [try: body except AssertionError as e: h e], then the code after it. *)
Definition except_AssertionError {A} (body : M unit) (h : string -> M A)
    (rest : M A) : M A :=
  fun w =>
    match body w with
    | (Ret _, w') => rest w'
    | (Raise (AssertionError m), w') => h m w'
    | (Raise e, w') => (Raise e, w')
    end.

Definition log_error (msg : string) : M unit :=
  fun w => (Ret tt, add_errlog msg w).

(** A list comprehension whose element expression may raise. *)
Fixpoint mapM {A B} (f : A -> M B) (l : list A) : M (list B) :=
  match l with
  | [] => ret []
  | x :: l' => y <- f x ;; ys <- mapM f l' ;; ret (y :: ys)
  end.

(** A statement with its arguments bound: the result set and the new file
    content, or [None] where SQLite raises (no such table, syntax error). *)
Definition stmt := sqlite_file -> option (list Row * sqlite_file).

(** A SELECT on one table. *)
Definition select {R} (tbl : sqlite_file -> option (table R))
    (q : list R -> list Row) : stmt :=
  fun f =>
    match tbl f with
    | Some t => Some (q (rows t), f)
    | None => None
    end.

(** An INSERT, UPDATE or DELETE on one table. *)
Definition modify {R} (tbl : sqlite_file -> option (table R))
    (set : table R -> sqlite_file -> sqlite_file)
    (u : table R -> table R) : stmt :=
  fun f =>
    match tbl f with
    | Some t => Some ([], set (u t) f)
    | None => None
    end.

(** CREATE TABLE IF NOT EXISTS. *)
Definition create_table {R} (tbl : sqlite_file -> option (table R))
    (set : table R -> sqlite_file -> sqlite_file) : stmt :=
  fun f =>
    match tbl f with
    | Some _ => Some ([], f)
    | None => Some ([], set empty_table f)
    end.

(** ** class Database *)

Module Database.

(** [__init__]: [sqlite3.connect] creates the file when it is absent; when
    the file cannot be opened it raises [sqlite3.OperationalError], which
    nothing in the constructors catches. *)
Definition init (filename : string) : M unit :=
  fun w =>
    let w1 := set_faults (tl (faults w)) w in
    match faults w with
    | true :: _ => (Raise OperationalError, w1)
    | _ =>
        match files w !! filename with
        | Some _ => (Ret tt, w1)
        | None => (Ret tt, set_files (<[filename := empty_file]> (files w)) w1)
        end
    end.

(** [execute_sql]: run the statement; an engine error is swallowed and
    reported as [False], whether it comes from the engine's surroundings
    (the next entry of [faults]) or from the statement (no such table, a
    statement that does not parse; a file that is gone from the disk has no
    table).  Every data-changing statement of the source is run with
    [commit=True], so [commit] changes nothing that a later statement can
    see.  Integer arguments are taken inside SQLite's 64-bit range: beyond
    it the binding of the argument raises [OverflowError], which the [try]
    of the source does not catch and which is not modelled here. *)
Definition execute_sql (filename : string) (s : stmt) (commit : bool) : M bool :=
  fun w =>
    let w1 := set_faults (tl (faults w)) w in
    match faults w with
    | true :: _ => (Ret false, w1)
    | _ =>
        match files w !! filename with
        | None => (Ret false, w1)
        | Some f =>
            match s f with
            | None => (Ret false, w1)
            | Some (rs, f') =>
                (Ret true,
                 set_cur rs (set_files (<[filename := f']> (files w)) w1))
            end
        end
    end.

(** [self.cur.fetchall()]. *)
Definition fetchall : M (list Row) :=
  fun w => (Ret (cur w), set_cur [] w).

(** [self.cur.fetchone()]. *)
Definition fetchone : M (option Row) :=
  fun w =>
    match cur w with
    | [] => (Ret None, w)
    | r :: rs => (Ret (Some r), set_cur rs w)
    end.

(** [row[key]] on what [fetchone] returned: [None] is not subscriptable,
    an unknown column is an [IndexError]. *)
Definition getitem (r : option Row) (key : string) : M value :=
  match r with
  | None => raise TypeError
  | Some cols =>
      match List.find (fun c => String.eqb (fst c) key) cols with
      | Some c => ret (snd c)
      | None => raise IndexError
      end
  end.

(** [get_tables]: the names in sqlite_master, here in a fixed order and not
    in the order of creation; the callers only test membership. *)
Definition table_names (f : sqlite_file) : list string :=
  let present {R} (o : option (table R)) (n : string) :=
    match o with Some _ => [n] | None => [] end in
  let l := (present (hosts f) "hosts" ++ present (items f) "items"
            ++ present (attacks f) "attacks" ++ present (imports f) "imports"
            ++ present (projects f) "projects")%list in
  match l with
  | [] => []
  | _ => (l ++ ["sqlite_sequence"])%list
  end.

Definition get_tables (filename : string) : M (list value) :=
  (* SELECT name FROM sqlite_master WHERE type='table' *)
  ok <- execute_sql filename
          (fun f => Some (map (fun n => [("name", VStr n)]) (table_names f), f))
          true ;;
  if ok then
    rs <- fetchall ;;
    mapM (fun n => getitem (Some n) "name") rs
  else ret [].

End Database.

(** ** Ordering and de-duplication of result sets *)

(** ORDER BY on a text column uses the BINARY collation: strings compare
    character by character on their codes. *)
Definition str_ltb (a b : string) : bool :=
  match String_as_OT.compare a b with Lt => true | _ => false end.

(** Insert [x] at its place in an ascending list without repetition. *)
Fixpoint insert_distinct {A} (ltb : A -> A -> bool) (x : A) (l : list A) : list A :=
  match l with
  | [] => [x]
  | y :: l' =>
      if ltb x y then x :: l
      else if ltb y x then y :: insert_distinct ltb x l'
      else l
  end.

(** SELECT DISTINCT c ... ORDER BY c ASC. *)
Definition distinct_sorted {A} (ltb : A -> A -> bool) (l : list A) : list A :=
  fold_right (insert_distinct ltb) [] l.

(** SELECT DISTINCT c with no ORDER BY: first occurrences, in scan order. *)
Fixpoint distinct {A} (eqb : A -> A -> bool) (l : list A) : list A :=
  match l with
  | [] => []
  | x :: l' => x :: List.filter (fun y => negb (eqb x y)) (distinct eqb l')
  end.

(** [a <= b] in the BINARY collation. *)
Definition str_leb (a b : string) : bool := negb (str_ltb b a).

(** Insert the row [x] at its place in a list ascending on the column
    [key]. *)
Fixpoint insert_by {R} (key : R -> string) (x : R) (l : list R) : list R :=
  match l with
  | [] => [x]
  | y :: l' =>
      if str_leb (key x) (key y) then x :: l else y :: insert_by key x l'
  end.

(** SELECT ... ORDER BY key, on a text column: every row, ascending on
    [key]; rows with equal keys stay in scan order. *)
Definition order_by {R} (key : R -> string) (l : list R) : list R :=
  fold_right (insert_by key) [] l.

(** ** class HostDatabase *)

Module HostDatabase.

Definition init (filename : string) : M unit :=
  Database.init filename ;;;
  hres <- Database.execute_sql filename (create_table hosts set_hosts) true ;;
  if hres then ret tt
  else raise (DatabaseException "Could not create hosts table.").

(** INSERT INTO hosts (ip) VALUES(?) *)
Definition create_host (filename ip : string) : M bool :=
  Database.execute_sql filename
    (modify hosts set_hosts
       (insert_row host_id
          (fun i => {| host_id := i; host_ip := ip; host_note := None |})))
    true.

(** SELECT DISTINCT ip FROM hosts ORDER BY ip *)
Definition get_hosts (filename : string) : M (list Row) :=
  ok <- Database.execute_sql filename
          (select hosts
             (fun rs => map (fun a => [("ip", VStr a)])
                          (distinct_sorted str_ltb (map host_ip rs))))
          true ;;
  if ok then Database.fetchall else ret [].

(** SELECT ip FROM hosts WHERE ip=? *)
Definition get_host_ip (filename ip : string) : M (list value) :=
  ok <- Database.execute_sql filename
          (select hosts
             (fun rs => map (fun h => [("ip", VStr (host_ip h))])
                          (List.filter (fun h => String.eqb (host_ip h) ip) rs)))
          true ;;
  if ok then
    rs <- Database.fetchall ;;
    mapM (fun i => Database.getitem (Some i) "ip") rs
  else ret [].

(** SELECT note from hosts WHERE ip=? *)
Definition get_host_note (filename ip : string) : M value :=
  ok <- Database.execute_sql filename
          (select hosts
             (fun rs => map (fun h => [("note", of_option (host_note h))])
                          (List.filter (fun h => String.eqb (host_ip h) ip) rs)))
          true ;;
  if ok then
    r <- Database.fetchone ;;
    Database.getitem r "note"
  else ret (VStr "").

(** UPDATE hosts SET note=? WHERE ip=? *)
Definition update_host_note (filename ip note : string) : M bool :=
  Database.execute_sql filename
    (modify hosts set_hosts
       (update_rows
          (fun h => if String.eqb (host_ip h) ip
                    then {| host_id := host_id h; host_ip := host_ip h;
                            host_note := Some note |}
                    else h)))
    true.

(** SELECT ip, note from hosts ORDER BY ip *)
Definition get_host_notes (filename : string) : M (list Row) :=
  ok <- Database.execute_sql filename
          (select hosts
             (fun rs => map (fun h => [("ip", VStr (host_ip h));
                                       ("note", of_option (host_note h))])
                          (order_by host_ip rs)))
          true ;;
  if ok then Database.fetchall else ret [].

End HostDatabase.

(** ** The LIKE operator *)

(** SQLite folds the 26 upper-case ASCII letters when LIKE compares. *)
Definition lower (c : ascii) : ascii :=
  let n := nat_of_ascii c in
  if ((65 <=? n) && (n <=? 90))%nat then ascii_of_nat (n + 32) else c.

(** [s LIKE p] with no ESCAPE clause: [%] stands for any run of characters,
    [_] for any one character, every other character for itself up to the
    case of ASCII letters. *)
Fixpoint sql_like (p s : string) : bool :=
  match p with
  | EmptyString =>
      match s with
      | EmptyString => true
      | String _ _ => false
      end
  | String c p' =>
      if Ascii.eqb c "%" then
        (fix any (t : string) : bool :=
           sql_like p' t
           || match t with
              | EmptyString => false
              | String _ t' => any t'
              end) s
      else
        match s with
        | EmptyString => false
        | String d s' =>
            (Ascii.eqb c "_" || Ascii.eqb (lower c) (lower d)) && sql_like p' s'
        end
  end.

(** [' OR '.join(clauses)] after [WHERE]: with no clause the statement ends
    at [WHERE] and does not parse. *)
Definition or_join {R} (clauses : list (R -> bool)) : option (R -> bool) :=
  match clauses with
  | [] => None
  | _ => Some (fun r => existsb (fun c => c r) clauses)
  end.

(** The largest number of OR-ed [note LIKE ?] clauses SQLite accepts with
    its default limits (999 host parameters, expression depth 1000): a
    statement with 1000 clauses or more is refused with [sqlite3.Error]. *)
Definition max_like_terms : nat := 999.

(** ** validate.Validate *)

(** Modelled from the spec: the module [validate] is not among the sources.
    Its four checks are pure; a check either passes ([None]) or raises
    [AssertionError] with a message ([Some msg]), which is the only failure
    that [create_item] handles.  The checks are a parameter of
    [create_item]; nothing below depends on what they accept. *)
Record Validate := {
  valid_ip : string -> option string;
  valid_port : Z -> option string;
  valid_protocol : string -> option string;
  valid_hash : string -> option string }.

Definition check (o : option string) : M unit :=
  match o with
  | None => ret tt
  | Some msg => raise (AssertionError msg)
  end.

(** ** class ItemDatabase *)

(** The dict that [get_summary] returns. *)
Record summary := {
  s_hosts : list Row;
  s_ips : list value;
  s_tcp : list value;
  s_udp : list value }.

(** What [get_item] hands back: a row, [None], or the empty dict of its
    failure branch. *)
Inductive item_lookup :=
  | ItemRow (r : Row)
  | ItemNone
  | ItemEmptyDict.

(** The columns of SELECT * FROM items. *)
Definition item_row (i : item) : Row :=
  [("id", VInt (item_id i)); ("ip", VStr (item_ip i));
   ("port", VInt (item_port i)); ("protocol", VStr (item_protocol i));
   ("note", VStr (item_note i)); ("hash", VStr (item_hash i))].

Module ItemDatabase.

Definition init (filename : string) : M unit :=
  Database.init filename ;;;
  ires <- Database.execute_sql filename (create_table items set_items) true ;;
  if ires then ret tt
  else raise (DatabaseException "Could not create items table.").

(** INSERT INTO items (ip, port, protocol, note, hash) VALUES(?,?,?,?,?) *)
Definition create_item (valid : Validate) (filename : string)
    (ip : string) (port : Z) (protocol note hash : string) : M bool :=
  except_AssertionError
    (check (valid_ip valid ip) ;;;
     check (valid_port valid port) ;;;
     check (valid_protocol valid protocol) ;;;
     check (valid_hash valid hash))
    (fun e => log_error e ;;; ret false)
    (Database.execute_sql filename
       (modify items set_items
          (insert_row item_id
             (fun i => {| item_id := i; item_ip := ip; item_port := port;
                          item_protocol := protocol; item_note := note;
                          item_hash := hash |})))
       true).

(** SELECT DISTINCT(port) FROM items
    WHERE port != 0 AND protocol == <proto> ORDER BY port ASC *)
Definition select_ports (proto : string) : stmt :=
  select items
    (fun rs =>
       map (fun p => [("port", VInt p)])
         (distinct_sorted Z.ltb
            (map item_port
               (List.filter
                  (fun h => negb (Z.eqb (item_port h) 0)
                            && String.eqb (item_protocol h) proto) rs)))).

Definition get_summary (filename : string) : M summary :=
  (* SELECT ip, port, protocol FROM items WHERE port != 0 *)
  ok1 <- Database.execute_sql filename
           (select items
              (fun rs =>
                 map (fun h => [("ip", VStr (item_ip h));
                                ("port", VInt (item_port h));
                                ("protocol", VStr (item_protocol h))])
                   (List.filter (fun h => negb (Z.eqb (item_port h) 0)) rs)))
           true ;;
  hosts_ <- (if ok1 then
               rs <- Database.fetchall ;;
               mapM (fun h =>
                       ip <- Database.getitem (Some h) "ip" ;;
                       port <- Database.getitem (Some h) "port" ;;
                       protocol <- Database.getitem (Some h) "protocol" ;;
                       ret [("ip", ip); ("port", port); ("protocol", protocol)])
                    rs
             else ret []) ;;
  (* SELECT DISTINCT(ip) FROM items *)
  ok2 <- Database.execute_sql filename
           (select items
              (fun rs => map (fun a => [("ip", VStr a)])
                           (distinct String.eqb (map item_ip rs))))
           true ;;
  ips <- (if ok2 then
            rs <- Database.fetchall ;;
            mapM (fun h => Database.getitem (Some h) "ip") rs
          else ret []) ;;
  ok3 <- Database.execute_sql filename (select_ports "tcp") true ;;
  tcp <- (if ok3 then
            rs <- Database.fetchall ;;
            mapM (fun h => Database.getitem (Some h) "port") rs
          else ret []) ;;
  ok4 <- Database.execute_sql filename (select_ports "udp") true ;;
  udp <- (if ok4 then
            rs <- Database.fetchall ;;
            mapM (fun h => Database.getitem (Some h) "port") rs
          else ret []) ;;
  ret {| s_hosts := hosts_; s_ips := ips; s_tcp := tcp; s_udp := udp |}.

(** SELECT id, ip, port FROM items WHERE note LIKE ? OR note LIKE ? ...

    SQLite rejects the statement when it has more than [max_like_terms]
    clauses. *)
Definition select_keywords (kw_strs : list string) : stmt :=
  fun f =>
    if (max_like_terms <? length kw_strs)%nat then None else
    match or_join (map (fun pat (r : item) => sql_like pat (item_note r)) kw_strs) with
    | None => None
    | Some cond =>
        select items
          (fun rs =>
             map (fun r => [("id", VInt (item_id r)); ("ip", VStr (item_ip r));
                            ("port", VInt (item_port r))])
               (List.filter cond rs)) f
    end.

Definition get_items_by_keywords (filename : string)
    (keywords : option (list string)) : M (list (value * value * value)) :=
  match keywords with
  | None => ret []
  | Some kws =>
      let kw_strs := map (fun kw => "%" +:+ kw +:+ "%") kws in
      ok <- Database.execute_sql filename (select_keywords kw_strs) true ;;
      if ok then
        rs <- Database.fetchall ;;
        mapM (fun i =>
                id <- Database.getitem (Some i) "id" ;;
                ip <- Database.getitem (Some i) "ip" ;;
                port <- Database.getitem (Some i) "port" ;;
                ret (id, ip, port))
             rs
      else ret []
  end.

(** SELECT * FROM items WHERE id=? *)
Definition get_item (filename : string) (item_id_ : Z) : M item_lookup :=
  ok <- Database.execute_sql filename
          (select items
             (fun rs => map item_row
                          (List.filter (fun i => Z.eqb (item_id i) item_id_) rs)))
          true ;;
  if ok then
    r <- Database.fetchone ;;
    ret (match r with Some r => ItemRow r | None => ItemNone end)
  else ret ItemEmptyDict.

(** SELECT * FROM items WHERE ip=? *)
Definition get_items_by_ip (filename ip : string) : M (list Row) :=
  ok <- Database.execute_sql filename
          (select items
             (fun rs => map item_row
                          (List.filter (fun i => String.eqb (item_ip i) ip) rs)))
          true ;;
  if ok then Database.fetchall else ret [].

(** SELECT ip FROM items WHERE hash=? *)
Definition get_items_by_hash (filename hash : string) : M (list value) :=
  ok <- Database.execute_sql filename
          (select items
             (fun rs => map (fun i => [("ip", VStr (item_ip i))])
                          (List.filter (fun i => String.eqb (item_hash i) hash) rs)))
          true ;;
  if ok then
    rs <- Database.fetchall ;;
    mapM (fun i => Database.getitem (Some i) "ip") rs
  else ret [].

End ItemDatabase.

(** ** class AttackDatabase *)

Module AttackDatabase.

Definition init (filename : string) : M unit :=
  Database.init filename ;;;
  ares <- Database.execute_sql filename (create_table attacks set_attacks) true ;;
  if ares then ret tt
  else raise (DatabaseException "Could not create attack table.").

(** INSERT INTO attacks (name, description, items, note) VALUES(?,?,?,?) *)
Definition create_attack (filename name description : string)
    (items : list string) : M bool :=
  Database.execute_sql filename
    (modify attacks set_attacks
       (insert_row attack_id
          (fun i => {| attack_id := i; attack_name := name;
                       attack_description := description;
                       attack_items := String.concat "," items;
                       attack_note := "" |})))
    true.

(** SELECT * FROM attacks WHERE id=? *)
Definition get_attack (filename : string) (aid : Z) : M (option Row) :=
  ok <- Database.execute_sql filename
          (select attacks
             (fun rs =>
                map (fun a => [("id", VInt (attack_id a));
                               ("name", VStr (attack_name a));
                               ("description", VStr (attack_description a));
                               ("items", VStr (attack_items a));
                               ("note", VStr (attack_note a))])
                  (List.filter (fun a => Z.eqb (attack_id a) aid) rs)))
          false ;;
  if ok then Database.fetchone else ret None.

(** SELECT id, name, description FROM attacks *)
Definition get_attacks (filename : string) : M (list Row) :=
  ok <- Database.execute_sql filename
          (select attacks
             (fun rs =>
                map (fun a => [("id", VInt (attack_id a));
                               ("name", VStr (attack_name a));
                               ("description", VStr (attack_description a))])
                  rs))
          false ;;
  if ok then Database.fetchall else ret [].

(** UPDATE attacks SET items=? WHERE id=? *)
Definition update_attack_hosts (filename : string) (aid : Z)
    (items : list string) : M bool :=
  Database.execute_sql filename
    (modify attacks set_attacks
       (update_rows
          (fun a => if Z.eqb (attack_id a) aid
                    then {| attack_id := attack_id a;
                            attack_name := attack_name a;
                            attack_description := attack_description a;
                            attack_items := String.concat "," items;
                            attack_note := attack_note a |}
                    else a)))
    true.

(** SELECT id, note FROM attacks WHERE name=? *)
Definition get_attack_by_name (filename name : string) : M (option Row) :=
  ok <- Database.execute_sql filename
          (select attacks
             (fun rs => map (fun a => [("id", VInt (attack_id a));
                                       ("note", VStr (attack_note a))])
                          (List.filter (fun a => String.eqb (attack_name a) name) rs)))
          false ;;
  if ok then Database.fetchone else ret None.

(** SELECT name, note FROM attacks *)
Definition get_attack_notes (filename : string) : M (list (value * value)) :=
  ok <- Database.execute_sql filename
          (select attacks
             (fun rs => map (fun a => [("name", VStr (attack_name a));
                                       ("note", VStr (attack_note a))]) rs))
          false ;;
  if ok then
    rs <- Database.fetchall ;;
    mapM (fun a =>
            name <- Database.getitem (Some a) "name" ;;
            note <- Database.getitem (Some a) "note" ;;
            ret (name, note))
         rs
  else ret [].

(** UPDATE attacks SET note=? WHERE id=? *)
Definition update_attack_note (filename : string) (aid : Z) (note : string) : M bool :=
  Database.execute_sql filename
    (modify attacks set_attacks
       (update_rows
          (fun a => if Z.eqb (attack_id a) aid
                    then {| attack_id := attack_id a;
                            attack_name := attack_name a;
                            attack_description := attack_description a;
                            attack_items := attack_items a;
                            attack_note := note |}
                    else a)))
    true.

End AttackDatabase.

(** ** class ImportDatabase *)

Module ImportDatabase.

Definition init (filename : string) : M unit :=
  Database.init filename ;;;
  ires <- Database.execute_sql filename (create_table imports set_imports) true ;;
  if ires then ret tt
  else raise (DatabaseException "Could not create imports table.").

(** SELECT filename FROM imports ORDER BY filename *)
Definition get_imported_files (filename : string) : M (list value) :=
  ok <- Database.execute_sql filename
          (select imports
             (fun rs => map (fun p => [("filename", VStr (import_filename p))])
                          (order_by import_filename rs)))
          true ;;
  if ok then
    rs <- Database.fetchall ;;
    mapM (fun p => Database.getitem (Some p) "filename") rs
  else ret [].

(** INSERT INTO imports (filename) VALUES (?) *)
Definition add_import_file (filename file : string) : M bool :=
  Database.execute_sql filename
    (modify imports set_imports
       (insert_row import_id
          (fun i => {| import_id := i; import_filename := file |})))
    true.

End ImportDatabase.

(** ** class ScanDatabase *)

(** The dict that [get_host_details] returns. *)
Record host_details := { d_note : value; d_items : list Row }.

Module ScanDatabase.

Definition init (filename : string) : M unit :=
  ItemDatabase.init filename ;;;
  AttackDatabase.init filename ;;;
  HostDatabase.init filename ;;;
  ImportDatabase.init filename.

Definition get_stats (filename : string) : M string :=
  hosts_ <- HostDatabase.get_hosts filename ;;
  attacks_ <- AttackDatabase.get_attacks filename ;;
  ret ("Hosts: " +:+ format_int (Z.of_nat (length hosts_))
       +:+ "  Attacks " +:+ format_int (Z.of_nat (length attacks_))).

Definition get_host_details (filename ip : string) : M host_details :=
  note <- HostDatabase.get_host_note filename ip ;;
  items_ <- ItemDatabase.get_items_by_ip filename ip ;;
  ret {| d_note := note; d_items := items_ |}.

End ScanDatabase.

(** ** class ProjectDatabase *)

(** [os.path.join('data', name)]. *)
Definition data_path (name : string) : string := "data/" +:+ name.

Definition PRJ_FILE : string := data_path "projects.sqlite".

(** [random.choice(seq)]: the element at the position the generator draws. *)
Definition random_choice (seq : string) : M ascii :=
  fun w =>
    let n := hd 0%nat (rng w) in
    let w' := set_rng (tl (rng w)) w in
    match String.get (n mod String.length seq) seq with
    | Some c => (Ret c, w')
    | None => (Raise IndexError, w')
    end.

Module ProjectDatabase.

Definition initialize_project_database : M unit :=
  res <- Database.execute_sql PRJ_FILE (create_table projects set_projects) true ;;
  if res then ret tt
  else raise (DatabaseException "Could not initialize project database.").

Definition init : M unit :=
  Database.init PRJ_FILE ;;;
  tables <- Database.get_tables PRJ_FILE ;;
  if existsb (fun n => match n with
                        | VStr n => String.eqb "projects" n
                        | _ => false
                        end) tables
  then ret tt
  else initialize_project_database.

(** INSERT INTO projects (name, dbfile) VALUES(?,?) *)
Definition create_project (name : string) : M bool :=
  cs <- mapM (fun _ => random_choice "0123456789abcdef") (List.seq 0 12) ;;
  let db_name := string_of_list_ascii cs in
  let db_name := data_path (db_name +:+ ".sqlite") in
  except_DatabaseException
    (ScanDatabase.init db_name ;;;
     Database.execute_sql PRJ_FILE
       (modify projects set_projects
          (insert_row project_id
             (fun i => {| project_id := i; project_name := name;
                          project_note := None;
                          project_dbfile := db_name |})))
       true)
    (ret false).

(** SELECT name, dbfile, note FROM projects WHERE id=? *)
Definition get_project (pid : Z) : M pyobj :=
  ok <- Database.execute_sql PRJ_FILE
          (select projects
             (fun rs =>
                map (fun p => [("name", VStr (project_name p));
                               ("dbfile", VStr (project_dbfile p));
                               ("note", of_option (project_note p))])
                  (List.filter (fun p => Z.eqb (project_id p) pid) rs)))
          true ;;
  if ok then
    r <- Database.fetchone ;;
    ret (match r with Some r => PyRow r | None => PyNone end)
  else ret (PyTuple [VNone; VNone]).

(** [os.remove] inside [try ... except Exception as e]. *)
Definition delete_file (filename : value) : M unit :=
  match filename with
  | VStr path =>
      fun w =>
        match files w !! path with
        | Some _ => (Ret tt, set_files (delete path (files w)) w)
        | None =>
            log_error ("Could not delete file " +:+ path
                       +:+ ": [Errno 2] No such file or directory: '"
                       +:+ path +:+ "'") w
        end
  | VNone =>
      log_error ("Could not delete file None: "
                 +:+ "coercing to Unicode: need string or buffer, NoneType found")
  | VInt n =>
      log_error ("Could not delete file " +:+ format_int n
                 +:+ ": coercing to Unicode: need string or buffer, int found")
  end.

(** [name, db_file, _ = x]. *)
Definition unpack3 (x : pyobj) : M (value * value * value) :=
  match x with
  | PyNone => raise TypeError
  | PyRow r =>
      match map snd r with
      | [a; b; c] => ret (a, b, c)
      | _ => raise ValueError
      end
  | PyTuple l =>
      match l with
      | [a; b; c] => ret (a, b, c)
      | _ => raise ValueError
      end
  end.

(** DELETE FROM projects WHERE id=?

    The lookup is unpacked before [name] is tested.  In the branch of a
    failed DELETE the source calls [self.error], which the class does not
    have: [AttributeError]. *)
Definition delete_project (pid : Z) : M unit :=
  r <- get_project pid ;;
  t <- unpack3 r ;;
  let '(name, db_file, _) := t in
  (match name with
   | VNone => log_error ("Could not find project " +:+ format_int pid +:+ ".")
   | _ => ret tt
   end) ;;;
  ok <- Database.execute_sql PRJ_FILE
          (modify projects set_projects
             (delete_rows (fun p => Z.eqb (project_id p) pid)))
          true ;;
  if ok then delete_file db_file
  else raise AttributeError.

(** The columns of SELECT * FROM projects. *)
Definition project_row (p : project) : Row :=
  [("id", VInt (project_id p)); ("name", VStr (project_name p));
   ("note", of_option (project_note p)); ("dbfile", VStr (project_dbfile p))].

(** SELECT * FROM projects ORDER BY name *)
Definition get_projects : M (list Row) :=
  ok <- Database.execute_sql PRJ_FILE
          (select projects
             (fun rs => map project_row (order_by project_name rs)))
          true ;;
  if ok then Database.fetchall else ret [].

(** UPDATE projects SET note=? WHERE id=? *)
Definition update_project_note (pid : Z) (note : string) : M bool :=
  Database.execute_sql PRJ_FILE
    (modify projects set_projects
       (update_rows
          (fun p => if Z.eqb (project_id p) pid
                    then {| project_id := project_id p;
                            project_name := project_name p;
                            project_note := Some note;
                            project_dbfile := project_dbfile p |}
                    else p)))
    true.

End ProjectDatabase.

(** ** The project lookup of the front end (src/ptn/webserver.py) *)

(** [project[key]] on what [get_project] returned: [None] is not
    subscriptable and a tuple is not indexed by a string. *)
Definition subscript (project : pyobj) (key : string) : M value :=
  match project with
  | PyRow r => Database.getitem (Some r) key
  | PyNone => raise TypeError
  | PyTuple _ => raise TypeError
  end.

(** The first statements of the handlers [import_scan] and [get_project]:
    [pdb = database.ProjectDatabase()], [project = pdb.get_project(pid)],
    and the evaluation of [project['dbfile']]. *)
Definition project_dbfile_of (pid : Z) : M value :=
  ProjectDatabase.init ;;;
  project <- ProjectDatabase.get_project pid ;;
  subscript project "dbfile".

(** ** Reading the items of an attack back *)

(** [s.split(sep)] for a separator of one character, as the front end
    (src/ptn/webserver.py, get_attack) splits the comma-joined field: the
    pieces between the occurrences of [sep]; the empty string splits into
    one empty piece. *)
Fixpoint str_split (sep : ascii) (s : string) : list string :=
  match s with
  | EmptyString => [""]
  | String c s' =>
      if Ascii.eqb c sep then "" :: str_split sep s'
      else
        match str_split sep s' with
        | x :: xs => String c x :: xs
        | [] => [String c ""]
        end
  end.

(** [attack = get_attack(aid)], then the stored items field split on the
    comma. *)
Definition read_items (filename : string) (aid : Z) : M (list string) :=
  a <- AttackDatabase.get_attack filename aid ;;
  v <- Database.getitem a "items" ;;
  match v with
  | VStr s => ret (str_split "," s)
  | _ => raise AttributeError
  end.

(** [sep] does not occur in [s]. *)
Fixpoint free_of (sep : ascii) (s : string) : bool :=
  match s with
  | EmptyString => true
  | String c s' => negb (Ascii.eqb c sep) && free_of sep s'
  end.

(** ** Vocabulary of the statements *)

(** The result and the final world of a computation. *)
Definition result {A} (x : outcome A * world) : outcome A := fst x.
Definition final {A} (x : outcome A * world) : world := snd x.

(** The engine raises for none of the coming calls, connects and
    statements alike. *)
Definition healthy (w : world) : Prop := faults w = [].

(** [fn] names an open host store of [w] holding the table [t]. *)
Definition hosts_at (fn : string) (w : world) (t : table host) : Prop :=
  exists f, files w !! fn = Some f /\ hosts f = Some t.
Definition items_at (fn : string) (w : world) (t : table item) : Prop :=
  exists f, files w !! fn = Some f /\ items f = Some t.
Definition attacks_at (fn : string) (w : world) (t : table attack) : Prop :=
  exists f, files w !! fn = Some f /\ attacks f = Some t.

(** An integer that SQLite binds as an argument: beyond 64 bits the binding
    raises [OverflowError] before the statement runs. *)
Definition int64 (n : Z) : Prop := - 2 ^ 63 <= n < 2 ^ 63.

(** The projects table of the registry file, when there is one. *)
Definition registry (w : world) : option (table project) :=
  match files w !! PRJ_FILE with
  | Some f => projects f
  | None => None
  end.

(** Computations that leave the registry table as it is. *)
Definition keeps_registry {A} (m : M A) : Prop :=
  forall w, registry (final (m w)) = registry w.

(** The [k] coming outcomes of the generator. *)
Fixpoint draws (k : nat) (r : list nat) : list nat :=
  match k with
  | O => []
  | S k' => hd 0%nat r :: draws k' (tl r)
  end.

Definition hexdigit (n : nat) : ascii :=
  match String.get (n mod 16) "0123456789abcdef" with
  | Some c => c
  | None => "0"%char
  end.

(** The 12 hexadecimal digits [create_project] draws from the generator. *)
Definition token (r : list nat) : string :=
  string_of_list_ascii (map hexdigit (draws 12 r)).


(** The endpoint row [get_summary] lists for an item. *)
Definition endpoint (h : item) : Row :=
  [("ip", VStr (item_ip h)); ("port", VInt (item_port h));
   ("protocol", VStr (item_protocol h))].

(** [fn] names an open import store of [w] holding the table [t]. *)
Definition imports_at (fn : string) (w : world) (t : table import) : Prop :=
  exists f, files w !! fn = Some f /\ imports f = Some t.

(** The rows of [l] are ascending on the text column [key]. *)
Definition ascending_on {R} (key : R -> string) (l : list R) : Prop :=
  StronglySorted (fun a b => str_leb (key a) (key b) = true) l.

(** The file after CREATE TABLE IF NOT EXISTS on one of its tables. *)
Definition ensure {R} (tbl : sqlite_file -> option (table R))
    (set : table R -> sqlite_file -> sqlite_file) (f : sqlite_file) : sqlite_file :=
  match tbl f with
  | Some _ => f
  | None => set empty_table f
  end.

(** The file after the four stores of a dataset were opened on it, in the
    order of [ScanDatabase.__init__]. *)
Definition opened (f : sqlite_file) : sqlite_file :=
  ensure imports set_imports
    (ensure hosts set_hosts
       (ensure attacks set_attacks
          (ensure items set_items f))).

(** The content of the file at [fn]; a file that is not on disk is what
    [sqlite3.connect] makes of it, an empty database. *)
Definition file_at (fn : string) (w : world) : sqlite_file :=
  match files w !! fn with
  | Some f => f
  | None => empty_file
  end.

(** ** Substrings, in the words of the specification *)






(** ** Concrete worlds *)

(** A freshly started world: nothing on disk, a healthy engine, and the
    given outcomes of the generator. *)
Definition fresh (r : list nat) : world :=
  {| files := ∅; cur := []; errlog := []; faults := []; rng := r |}.

(** The file of a project right after [ScanDatabase] opened it. *)
Definition new_store : sqlite_file :=
  {| hosts := Some empty_table; items := Some empty_table;
     attacks := Some empty_table; imports := Some empty_table;
     projects := None |}.

(** A world with one file and a healthy engine. *)
Definition one_file (fn : string) (f : sqlite_file) : world :=
  {| files := {[ fn := f ]}; cur := []; errlog := []; faults := []; rng := [] |}.

(** A registry holding one project, with its store file on disk. *)
Definition one_project : world :=
  final ((ProjectDatabase.init ;;; ProjectDatabase.create_project "acme") (fresh [])).

(** An open, empty registry whose generator will draw the digits
    [3a7f00c41b92] twice in a row. *)
Definition repeating_generator : world :=
  final (ProjectDatabase.init
           (fresh [3; 10; 7; 15; 0; 0; 12; 4; 1; 11; 9; 2;
                   3; 10; 7; 15; 0; 0; 12; 4; 1; 11; 9; 2]%nat)).

(** An open, empty registry whose generator draws [3a7f00c41b92] and then
    [d05e8812f6a3]. *)
Definition varying_generator : world :=
  final (ProjectDatabase.init
           (fresh [3; 10; 7; 15; 0; 0; 12; 4; 1; 11; 9; 2;
                   13; 0; 5; 14; 8; 8; 1; 2; 15; 6; 10; 3]%nat)).

(** Modelled from the spec: of [validate.Validate], which is not among the
    sources, the port check of section 4.2 (0 to 65535); the other three
    checks accept everything here. *)
Definition port_range_only : Validate :=
  {| valid_ip := fun _ => None;
     valid_port := fun p =>
       if (Z.leb 0 p && Z.leb p 65535)%bool then None else Some "Invalid port";
     valid_protocol := fun _ => None;
     valid_hash := fun _ => None |}.

(** The item store after the three inserts of the summary example. *)
Definition three_items : world :=
  let fn := "data/p.sqlite" in
  final ((ItemDatabase.create_item port_range_only fn "10.0.0.1" 80 "tcp" "http" "a1" ;;;
          ItemDatabase.create_item port_range_only fn "10.0.0.1" 53 "udp" "dns" "b2" ;;;
          ItemDatabase.create_item port_range_only fn "10.0.0.2" 0 "tcp" "" "c3")
           (one_file fn new_store)).


(** A dataset with one annotated host and two items on it, and one item on
    an address that has no hosts row. *)
Definition host_with_items : world :=
  let fn := "data/p.sqlite" in
  final ((HostDatabase.create_host fn "10.0.0.1" ;;;
          HostDatabase.update_host_note fn "10.0.0.1" "dc" ;;;
          ItemDatabase.create_item port_range_only fn "10.0.0.1" 80 "tcp" "http" "a1" ;;;
          ItemDatabase.create_item port_range_only fn "10.0.0.7" 22 "tcp" "ssh" "b2" ;;;
          ItemDatabase.create_item port_range_only fn "10.0.0.1" 53 "udp" "dns" "c3")
           (one_file fn new_store)).

(** A registry with two projects, [acme] with store [3a7f00c41b92] and
    [zeta corp] with store [d05e8812f6a3], and their files on disk. *)
Definition two_projects : world :=
  final ((ProjectDatabase.create_project "zeta corp" ;;;
          ProjectDatabase.create_project "acme") varying_generator).

(** The same registry after the store file of the first project was removed
    behind its back. *)
Definition store_file_lost : world :=
  set_files (delete "data/3a7f00c41b92.sqlite" (files two_projects)) two_projects.

(** The same registry with an engine that runs the next statement and fails
    the one after it. *)
Definition second_statement_fails : world :=
  set_faults [false; true] two_projects.

(** The dataset [host_with_items] with an engine that fails the coming
    statements. *)
Definition engine_down : world :=
  set_faults [true; true] host_with_items.

(** [host_with_items] with a second, empty store beside it. *)
Definition two_stores : world :=
  final (ScanDatabase.init "data/q.sqlite" host_with_items).

(** * Properties *)

(** ** Running statements *)

Lemma set_faults_healthy w : healthy w -> set_faults (tl (faults w)) w = w.
Proof. unfold healthy. destruct w; simpl; intros ->; reflexivity. Qed.

Lemma execute_sql_ok fn s c w f rs f' :
  healthy w -> files w !! fn = Some f -> s f = Some (rs, f') ->
  Database.execute_sql fn s c w
  = (Ret true, set_cur rs (set_files (<[fn := f']> (files w)) w)).
Proof.
  intros Hh Hf Hs. unfold Database.execute_sql.
  rewrite (set_faults_healthy w Hh), Hh, Hf, Hs. reflexivity.
Qed.

Lemma execute_select_ok {R} fn (tbl : sqlite_file -> option (table R)) q c w f t :
  healthy w -> files w !! fn = Some f -> tbl f = Some t ->
  Database.execute_sql fn (select tbl q) c w = (Ret true, set_cur (q (rows t)) w).
Proof.
  intros Hh Hf Ht.
  rewrite (execute_sql_ok fn _ c w f (q (rows t)) f Hh Hf).
  - rewrite (insert_id _ _ _ Hf). destruct w; reflexivity.
  - unfold select. rewrite Ht. reflexivity.
Qed.

Lemma execute_modify_ok {R} fn (tbl : sqlite_file -> option (table R)) set u c w f t :
  healthy w -> files w !! fn = Some f -> tbl f = Some t ->
  Database.execute_sql fn (modify tbl set u) c w
  = (Ret true, set_cur [] (set_files (<[fn := set (u t) f]> (files w)) w)).
Proof.
  intros Hh Hf Ht. apply (execute_sql_ok fn _ c w f); auto.
  unfold modify. rewrite Ht. reflexivity.
Qed.

(** A statement never touches the error log, and only ever rewrites the file
    it is run on. *)
Lemma execute_sql_frame fn s c w :
  errlog (final (Database.execute_sql fn s c w)) = errlog w
  /\ rng (final (Database.execute_sql fn s c w)) = rng w
  /\ forall p, p <> fn ->
       files (final (Database.execute_sql fn s c w)) !! p = files w !! p.
Proof.
  unfold Database.execute_sql, final.
  destruct (faults w) as [|[] ?]; simpl; auto;
    destruct (files w !! fn) as [f|]; simpl; auto;
    destruct (s f) as [[rs f']|]; simpl; auto;
    repeat split; auto; intros p Hp; apply lookup_insert_ne; congruence.
Qed.

(** ** Sorted, repetition-free result sets *)

Section DistinctSorted.
Context {A : Type} (lt : A -> A -> Prop) (ltb : A -> A -> bool).
Hypothesis lt_strict : StrictOrder lt.
Hypothesis ltb_lt : forall x y, ltb x y = true <-> lt x y.
Hypothesis ltb_total : forall x y, ltb x y = false -> ltb y x = false -> x = y.

Lemma insert_distinct_In x l a :
  In a (insert_distinct ltb x l) <-> a = x \/ In a l.
Proof.
  induction l as [|y l IH]; simpl.
  - intuition.
  - destruct (ltb x y) eqn:Hxy; simpl; [intuition|].
    destruct (ltb y x) eqn:Hyx; simpl.
    + rewrite IH. intuition.
    + pose proof (ltb_total x y Hxy Hyx) as ->. intuition.
Qed.

Lemma insert_distinct_sorted x l :
  StronglySorted lt l -> StronglySorted lt (insert_distinct ltb x l).
Proof.
  induction 1 as [|y l Hs IH Hall]; simpl.
  - repeat constructor.
  - destruct (ltb x y) eqn:Hxy.
    + apply ltb_lt in Hxy. constructor.
      * constructor; assumption.
      * constructor; [assumption|].
        rewrite List.Forall_forall in *.
        intros z Hz. etransitivity; [exact Hxy|auto].
    + destruct (ltb y x) eqn:Hyx.
      * apply ltb_lt in Hyx. constructor; [assumption|].
        rewrite List.Forall_forall in *. intros z Hz.
        apply insert_distinct_In in Hz as [->|Hz]; auto.
      * constructor; assumption.
Qed.

Lemma distinct_sorted_In l a : In a (distinct_sorted ltb l) <-> In a l.
Proof.
  induction l as [|x l IH]; simpl; [tauto|].
  rewrite insert_distinct_In, IH. intuition.
Qed.

Lemma distinct_sorted_sorted l : StronglySorted lt (distinct_sorted ltb l).
Proof.
  induction l as [|x l IH]; simpl.
  - constructor.
  - apply insert_distinct_sorted, IH.
Qed.

(** An ascending list holds no value twice. *)
Lemma sorted_NoDup l : StronglySorted lt l -> List.NoDup l.
Proof.
  induction 1 as [|y l Hs IH Hall]; [constructor|].
  constructor; [|assumption].
  intros Hin. rewrite List.Forall_forall in Hall.
  apply (StrictOrder_Irreflexive y). auto.
Qed.
End DistinctSorted.

Lemma str_ltb_lt x y : str_ltb x y = true <-> String_as_OT.lt x y.
Proof.
  unfold str_ltb, String_as_OT.lt.
  destruct (String_as_OT.compare x y); split; congruence.
Qed.

Lemma str_ltb_total x y : str_ltb x y = false -> str_ltb y x = false -> x = y.
Proof.
  unfold str_ltb. intros Hxy Hyx.
  destruct (String_as_OT.compare_spec x y) as [E|L|L]; auto; try discriminate.
  unfold String_as_OT.lt in L. rewrite L in Hyx. discriminate.
Qed.

Lemma Z_ltb_total x y : Z.ltb x y = false -> Z.ltb y x = false -> x = y.
Proof. intros H1%Z.ltb_ge H2%Z.ltb_ge. lia. Qed.

(** ** Host store *)

Lemma get_hosts_run fn w t :
  healthy w -> hosts_at fn w t ->
  HostDatabase.get_hosts fn w
  = (Ret (map (fun a => [("ip", VStr a)])
            (distinct_sorted str_ltb (map host_ip (rows t)))),
     set_cur [] w).
Proof.
  intros Hh (f & Hf & Ht). unfold HostDatabase.get_hosts, bind.
  rewrite (execute_select_ok fn hosts _ true w f t Hh Hf Ht).
  unfold Database.fetchall. destruct w; reflexivity.
Qed.

Lemma create_host_run fn ip w t :
  healthy w -> hosts_at fn w t ->
  exists w',
    HostDatabase.create_host fn ip w = (Ret true, w')
    /\ healthy w'
    /\ hosts_at fn w'
         (insert_row host_id
            (fun i => {| host_id := i; host_ip := ip; host_note := None |}) t).
Proof.
  intros Hh (f & Hf & Ht). unfold HostDatabase.create_host.
  rewrite (execute_modify_ok fn hosts set_hosts _ true w f t Hh Hf Ht).
  eexists; split; [reflexivity|]. split.
  - exact Hh.
  - eexists. split; [apply lookup_insert_eq|reflexivity].
Qed.

(** Creating the hosts of [ips] one after the other appends one row each. *)
Lemma create_hosts_run fn ips : forall w t,
  healthy w -> hosts_at fn w t ->
  exists w' t',
    final (mapM (HostDatabase.create_host fn) ips w) = w'
    /\ healthy w' /\ hosts_at fn w' t'
    /\ map host_ip (rows t') = (map host_ip (rows t) ++ ips)%list.
Proof.
  induction ips as [|ip ips IH]; intros w t Hh Ht; simpl.
  - exists w, t. rewrite app_nil_r. auto.
  - destruct (create_host_run fn ip w t Hh Ht) as (w1 & Hrun & Hh1 & Ht1).
    destruct (IH w1 _ Hh1 Ht1) as (w2 & t2 & Hfin & Hh2 & Ht2 & Hips).
    exists w2, t2. repeat split; auto.
    + unfold bind. rewrite Hrun.
      unfold final in *. destruct (mapM _ ips w1) as [[]]; simpl in *; auto.
    + rewrite Hips. simpl. rewrite map_app. simpl. rewrite <- app_assoc. reflexivity.
Qed.

(** C1, as amended: after any sequence of host creations on an open host
    store, [get_hosts] returns one row per distinct address of the hosts
    table, in strictly ascending order of address; an address created twice
    is listed once. *)
Theorem get_hosts_lists_distinct_addresses_ascending fn ips w t :
  healthy w -> hosts_at fn w t ->
  exists l,
    result (HostDatabase.get_hosts fn
              (final (mapM (HostDatabase.create_host fn) ips w)))
    = Ret (map (fun a => [("ip", VStr a)]) l)
    /\ StronglySorted String_as_OT.lt l
    /\ List.NoDup l
    /\ forall a, In a l <-> In a (map host_ip (rows t) ++ ips)%list.
Proof.
  intros Hh Ht.
  destruct (create_hosts_run fn ips w t Hh Ht) as (w' & t' & -> & Hh' & Ht' & Hips).
  rewrite (get_hosts_run fn w' t' Hh' Ht'). simpl.
  exists (distinct_sorted str_ltb (map host_ip (rows t'))).
  assert (Hs : StronglySorted String_as_OT.lt
                 (distinct_sorted str_ltb (map host_ip (rows t')))).
  { apply distinct_sorted_sorted.
    - apply String_as_OT.lt_strorder.
    - apply str_ltb_lt.
    - apply str_ltb_total. }
  repeat split; auto.
  - eapply sorted_NoDup; [apply String_as_OT.lt_strorder|exact Hs].
  - rewrite (distinct_sorted_In str_ltb str_ltb_total), Hips. auto.
  - rewrite (distinct_sorted_In str_ltb str_ltb_total), Hips. auto.
Qed.

Lemma get_hosts_lists_distinct_addresses_ascending_witness :
  exists l,
    result (HostDatabase.get_hosts "data/p.sqlite"
              (final (mapM (HostDatabase.create_host "data/p.sqlite")
                        ["10.0.0.2"; "10.0.0.1"; "10.0.0.2"]
                        (one_file "data/p.sqlite" new_store))))
    = Ret (map (fun a => [("ip", VStr a)]) l)
    /\ StronglySorted String_as_OT.lt l
    /\ List.NoDup l
    /\ forall a, In a l <->
                 In a (map host_ip (rows (@empty_table host))
                       ++ ["10.0.0.2"; "10.0.0.1"; "10.0.0.2"])%list.
Proof.
  apply (get_hosts_lists_distinct_addresses_ascending "data/p.sqlite"
           ["10.0.0.2"; "10.0.0.1"; "10.0.0.2"]
           (one_file "data/p.sqlite" new_store) empty_table).
  - reflexivity.
  - exists new_store. split; reflexivity.
Defined.

(** C1 fails as stated: two creations of the same address leave two rows in
    the hosts table, and [get_hosts] lists one entry, not one per row. *)
Lemma get_hosts_collapses_duplicate_rows :
  let w := final (mapM (HostDatabase.create_host "data/p.sqlite")
                    ["10.0.0.1"; "10.0.0.1"]
                    (one_file "data/p.sqlite" new_store)) in
  exists t rs,
    hosts_at "data/p.sqlite" w t
    /\ map host_ip (rows t) = ["10.0.0.1"; "10.0.0.1"]
    /\ result (HostDatabase.get_hosts "data/p.sqlite" w) = Ret rs
    /\ rs = [[("ip", VStr "10.0.0.1")]]
    /\ length rs <> length (rows t).
Proof.
  do 2 eexists. split; [|split; [|split; [|split]]].
  - eexists. split; vm_compute; reflexivity.
  - reflexivity.
  - vm_compute. reflexivity.
  - reflexivity.
  - discriminate.
Qed.

Lemma filter_none {A} (p : A -> bool) l :
  (forall x, In x l -> p x = false) -> List.filter p l = [].
Proof.
  induction l as [|x l IH]; simpl; intros H; [reflexivity|].
  rewrite (H x (or_introl eq_refl)). apply IH. intros y Hy. apply H. auto.
Qed.

(** C2: on an open host store with no row for [ip], the statement succeeds,
    [fetchone] yields [None], and subscripting it raises [TypeError]; no
    string is returned. *)
Theorem get_host_note_raises_when_address_absent fn ip w t :
  healthy w -> hosts_at fn w t ->
  (forall h, In h (rows t) -> host_ip h <> ip) ->
  result (HostDatabase.get_host_note fn ip w) = Raise TypeError.
Proof.
  intros Hh (f & Hf & Ht) Hno. unfold HostDatabase.get_host_note, bind.
  rewrite (execute_select_ok fn hosts _ true w f t Hh Hf Ht).
  rewrite filter_none.
  - reflexivity.
  - intros h Hin. apply String.eqb_neq. auto.
Qed.

Lemma get_host_note_raises_when_address_absent_witness :
  result (HostDatabase.get_host_note "data/p.sqlite" "10.0.0.1"
            (one_file "data/p.sqlite" new_store))
  = Raise TypeError.
Proof.
  apply (get_host_note_raises_when_address_absent "data/p.sqlite" "10.0.0.1"
           (one_file "data/p.sqlite" new_store) empty_table).
  - reflexivity.
  - exists new_store. split; reflexivity.
  - intros h [].
Defined.

(** A host that was created and never annotated has a NULL note:
    [get_host_note] returns [None] for it. *)
Example get_host_note_of_new_host :
  result ((HostDatabase.create_host "data/p.sqlite" "10.0.0.1" ;;;
           HostDatabase.get_host_note "data/p.sqlite" "10.0.0.1")
            (one_file "data/p.sqlite" new_store))
  = Ret VNone.
Proof. vm_compute. reflexivity. Qed.

(** C10: on an open host store, [update_host_note ip note] succeeds and
    rewrites the hosts table row by row: a row whose address is [ip] gets the
    new note and keeps its id and address, every other row is kept as it is;
    no row is added or removed, and no other table or file changes. *)
Theorem update_host_note_sets_note_of_every_matching_row fn ip note w t :
  healthy w -> hosts_at fn w t ->
  let w' := final (HostDatabase.update_host_note fn ip note w) in
  result (HostDatabase.update_host_note fn ip note w) = Ret true
  /\ (exists t',
        hosts_at fn w' t'
        /\ length (rows t') = length (rows t)
        /\ forall i h, nth_error (rows t) i = Some h ->
             exists h', nth_error (rows t') i = Some h'
                        /\ host_id h' = host_id h
                        /\ host_ip h' = host_ip h
                        /\ (host_ip h = ip -> host_note h' = Some note)
                        /\ (host_ip h <> ip -> h' = h))
  /\ (forall f f', files w !! fn = Some f -> files w' !! fn = Some f' ->
        items f' = items f /\ attacks f' = attacks f
        /\ imports f' = imports f /\ projects f' = projects f)
  /\ (forall p, p <> fn -> files w' !! p = files w !! p).
Proof.
  intros Hh (f & Hf & Ht). unfold HostDatabase.update_host_note.
  rewrite (execute_modify_ok fn hosts set_hosts _ true w f t Hh Hf Ht).
  simpl. split; [reflexivity|]. split; [|split].
  - eexists. split; [eexists; split; [apply lookup_insert_eq|reflexivity]|].
    simpl. split; [apply length_map|].
    intros i h Hi. rewrite nth_error_map, Hi. simpl.
    eexists. split; [reflexivity|].
    destruct (String.eqb_spec (host_ip h) ip) as [E|E]; simpl; repeat split; auto;
      intros; congruence.
  - intros f0 f' Hf0 Hf'. rewrite lookup_insert_eq in Hf'.
    assert (f0 = f) by congruence. subst f0.
    injection Hf' as <-. simpl. auto.
  - intros p Hp. apply lookup_insert_ne. congruence.
Qed.

Lemma update_host_note_sets_note_of_every_matching_row_witness :
  let w := final (mapM (HostDatabase.create_host "data/p.sqlite")
                    ["10.0.0.1"; "10.0.0.2"; "10.0.0.1"]
                    (one_file "data/p.sqlite" new_store)) in
  let w' := final (HostDatabase.update_host_note "data/p.sqlite" "10.0.0.1" "foo" w) in
  result (HostDatabase.update_host_note "data/p.sqlite" "10.0.0.1" "foo" w) = Ret true
  /\ hosts_at "data/p.sqlite" w'
       {| rows := [ {| host_id := 1; host_ip := "10.0.0.1"; host_note := Some "foo" |};
                    {| host_id := 2; host_ip := "10.0.0.2"; host_note := None |};
                    {| host_id := 3; host_ip := "10.0.0.1"; host_note := Some "foo" |} ];
          last_rowid := 3 |}.
Proof.
  intros w w'.
  assert (Hh : healthy w) by reflexivity.
  assert (Ht : hosts_at "data/p.sqlite" w
                 {| rows := [ {| host_id := 1; host_ip := "10.0.0.1"; host_note := None |};
                              {| host_id := 2; host_ip := "10.0.0.2"; host_note := None |};
                              {| host_id := 3; host_ip := "10.0.0.1"; host_note := None |} ];
                    last_rowid := 3 |}).
  { eexists. split; vm_compute; reflexivity. }
  destruct (update_host_note_sets_note_of_every_matching_row
              "data/p.sqlite" "10.0.0.1" "foo" w _ Hh Ht) as (Hres & _).
  split; [exact Hres|].
  eexists. split; vm_compute; reflexivity.
Defined.

(** ** Project dataset *)

Lemma get_attacks_run fn w t :
  healthy w -> attacks_at fn w t ->
  AttackDatabase.get_attacks fn w
  = (Ret (map (fun a => [("id", VInt (attack_id a));
                         ("name", VStr (attack_name a));
                         ("description", VStr (attack_description a))])
            (rows t)),
     set_cur [] w).
Proof.
  intros Hh (f & Hf & Ht). unfold AttackDatabase.get_attacks, bind.
  rewrite (execute_select_ok fn attacks _ false w f t Hh Hf Ht).
  unfold Database.fetchall. destruct w; reflexivity.
Qed.

(** What [get_stats] computes on an open dataset: the number of distinct
    host addresses, the number of attack rows, and the label [Attacks] with
    no colon after it. *)
Lemma get_stats_run fn w th ta :
  healthy w -> hosts_at fn w th -> attacks_at fn w ta ->
  result (ScanDatabase.get_stats fn w)
  = Ret ("Hosts: "
         +:+ format_int (Z.of_nat (length (distinct_sorted str_ltb (map host_ip (rows th)))))
         +:+ "  Attacks "
         +:+ format_int (Z.of_nat (length (rows ta)))).
Proof.
  intros Hh Hth Hta. unfold ScanDatabase.get_stats, bind.
  rewrite (get_hosts_run fn w th Hh Hth).
  rewrite (get_attacks_run fn (set_cur [] w) ta); [|exact Hh|exact Hta].
  simpl. unfold ret. simpl. rewrite !length_map. reflexivity.
Qed.

(** C9: on a dataset with three hosts rows over two addresses and one attack,
    [get_stats] returns [Hosts: 2  Attacks 1]: the counts are the ones
    claimed, the text is not, the colon after [Attacks] is missing. *)
Theorem get_stats_omits_colon_after_Attacks :
  let fn := "data/p.sqlite" in
  let w := final ((mapM (HostDatabase.create_host fn)
                     ["10.0.0.2"; "10.0.0.1"; "10.0.0.2"] ;;;
                   AttackDatabase.create_attack fn "smb" "SMB signing" ["10.0.0.1"])
                    (one_file fn new_store)) in
  result (ScanDatabase.get_stats fn w) = Ret "Hosts: 2  Attacks 1"
  /\ "Hosts: 2  Attacks 1" <> "Hosts: 2  Attacks: 1".
Proof.
  split.
  - vm_compute. reflexivity.
  - discriminate.
Qed.

(** ** Project registry *)

Lemma execute_sql_true_inv fn s c w w' :
  Database.execute_sql fn s c w = (Ret true, w') ->
  exists f rs f',
    files w !! fn = Some f /\ s f = Some (rs, f')
    /\ w' = set_cur rs (set_files (<[fn := f']> (files w))
                          (set_faults (tl (faults w)) w)).
Proof.
  unfold Database.execute_sql.
  destruct (faults w) as [|[] ?]; try discriminate;
    destruct (files w !! fn) as [f|]; try discriminate;
    destruct (s f) as [[rs f']|] eqn:Hs; try discriminate;
    intros [= <-]; exists f, rs, f'; auto.
Qed.

Lemma get_project_absent pid w :
  (forall t, registry w = Some t ->
             forall p, In p (rows t) -> project_id p <> pid) ->
  (result (ProjectDatabase.get_project pid w) = Ret PyNone
   \/ result (ProjectDatabase.get_project pid w) = Ret (PyTuple [VNone; VNone]))
  /\ files (final (ProjectDatabase.get_project pid w)) = files w
  /\ errlog (final (ProjectDatabase.get_project pid w)) = errlog w.
Proof.
  intros Hno. unfold ProjectDatabase.get_project, bind, Database.execute_sql.
  unfold registry in Hno.
  destruct (faults w) as [|[] ?]; simpl; auto;
    destruct (files w !! PRJ_FILE) as [f|] eqn:Hf; simpl; auto;
    unfold select; destruct (projects f) as [t|] eqn:Ht; simpl; auto;
    (rewrite filter_none;
     [ simpl; rewrite (insert_id _ _ _ Hf); auto
     | intros p Hp; apply Z.eqb_neq; apply (Hno t eq_refl p Hp) ]).
Qed.

(** C3: when the registry has no row for [pid], [delete_project] does not
    log and return: unpacking what [get_project] returned raises
    ([TypeError] on [None], [ValueError] on the two-element tuple of the
    failure branch) before the error record is written.  No file and no
    registry row is removed. *)
Theorem delete_project_raises_when_row_absent pid w :
  (forall t, registry w = Some t ->
             forall p, In p (rows t) -> project_id p <> pid) ->
  let r := ProjectDatabase.delete_project pid w in
  (result r = Raise TypeError \/ result r = Raise ValueError)
  /\ (healthy w -> registry w <> None -> result r = Raise TypeError)
  /\ files (final r) = files w
  /\ errlog (final r) = errlog w.
Proof.
  intros Hno r.
  destruct (get_project_absent pid w Hno) as (Hres & Hfiles & Hlog).
  assert (Hr : r = ProjectDatabase.delete_project pid w) by reflexivity.
  unfold ProjectDatabase.delete_project, bind in Hr.
  destruct (ProjectDatabase.get_project pid w) as [o w1] eqn:Hg.
  unfold result, final in *. simpl in *.
  split; [|split].
  - destruct Hres as [-> | ->]; rewrite Hr; simpl; auto.
  - intros Hh Hreg. unfold registry in Hreg.
    destruct (files w !! PRJ_FILE) as [f|] eqn:Hf; [|congruence].
    destruct (projects f) as [t|] eqn:Ht; [|congruence].
    unfold ProjectDatabase.get_project, bind in Hg.
    rewrite (execute_select_ok PRJ_FILE projects _ true w f t Hh Hf Ht) in Hg.
    rewrite filter_none in Hg.
    + simpl in Hg. injection Hg as <- <-. rewrite Hr. reflexivity.
    + intros p Hp. apply Z.eqb_neq. apply (Hno t); [|exact Hp].
      unfold registry. rewrite Hf. exact Ht.
  - destruct Hres as [-> | ->]; rewrite Hr; simpl; auto.
Qed.

Lemma delete_project_raises_when_row_absent_witness :
  let r := ProjectDatabase.delete_project 7 one_project in
  (result r = Raise TypeError \/ result r = Raise ValueError)
  /\ (healthy one_project -> registry one_project <> None ->
      result r = Raise TypeError)
  /\ files (final r) = files one_project
  /\ errlog (final r) = errlog one_project.
Proof.
  apply (delete_project_raises_when_row_absent 7 one_project).
  intros t Ht p Hp.
  assert (E : t = {| rows := [ {| project_id := 1; project_name := "acme";
                                  project_note := None;
                                  project_dbfile := "data/000000000000.sqlite" |} ];
                     last_rowid := 1 |}).
  { vm_compute in Ht. congruence. }
  subst t. destruct Hp as [<- | []]. discriminate.
Defined.

Lemma hexdigit_get n :
  String.get (n mod 16) "0123456789abcdef" = Some (hexdigit n).
Proof.
  unfold hexdigit.
  assert (H : (n mod 16 < 16)%nat) by (apply Nat.mod_upper_bound; discriminate).
  destruct (n mod 16)%nat as [|k]; [reflexivity|].
  do 15 (destruct k as [|k]; [reflexivity|]). lia.
Qed.

(** The comprehension of [create_project] draws its digits from the generator
    and changes nothing else. *)
Lemma random_choices_run (l : list nat) : forall w,
  exists r',
    mapM (fun _ => random_choice "0123456789abcdef") l w
    = (Ret (map hexdigit (draws (length l) (rng w))), set_rng r' w).
Proof.
  induction l as [|x l IH]; intros w; simpl.
  - exists (rng w). unfold ret. destruct w; reflexivity.
  - unfold bind at 1. unfold random_choice at 1.
    change (String.length "0123456789abcdef") with 16%nat.
    rewrite hexdigit_get. unfold bind at 1.
    destruct (IH (set_rng (tl (rng w)) w)) as (r' & ->).
    exists r'. unfold ret. simpl. reflexivity.
Qed.

Lemma keeps_registry_bind {A B} (m : M A) (k : A -> M B) :
  keeps_registry m -> (forall a, keeps_registry (k a)) -> keeps_registry (bind m k).
Proof.
  intros Hm Hk w. unfold bind. specialize (Hm w). unfold final in *.
  destruct (m w) as [[a|e] w1]; simpl in *.
  - rewrite <- Hm. apply (Hk a w1).
  - exact Hm.
Qed.

Lemma keeps_registry_ret {A} (a : A) : keeps_registry (ret a).
Proof. intros w. reflexivity. Qed.

Lemma keeps_registry_raise {A} e : keeps_registry (@raise A e).
Proof. intros w. reflexivity. Qed.

Lemma keeps_registry_connect fn : keeps_registry (Database.init fn).
Proof.
  intros w. unfold Database.init, registry, final.
  destruct (faults w) as [|[] ?]; simpl; try reflexivity;
    (destruct (files w !! fn) eqn:Hf; simpl; [reflexivity|]);
    (destruct (decide (fn = PRJ_FILE)) as [->|Hne];
     [ rewrite lookup_insert_eq, Hf; reflexivity
     | rewrite lookup_insert_ne by exact Hne; reflexivity ]).
Qed.

Lemma keeps_registry_execute fn s c :
  (forall f rs f', s f = Some (rs, f') -> projects f' = projects f) ->
  keeps_registry (Database.execute_sql fn s c).
Proof.
  intros Hs w. unfold Database.execute_sql, registry, final.
  destruct (faults w) as [|[] ?]; simpl; auto;
    destruct (files w !! fn) as [f|] eqn:Hf; simpl; auto;
    destruct (s f) as [[rs f']|] eqn:E; simpl; auto;
    (destruct (decide (fn = PRJ_FILE)) as [<-|Hne];
     [ rewrite lookup_insert_eq, Hf; apply (Hs f rs f' E)
     | rewrite lookup_insert_ne by exact Hne; reflexivity ]).
Qed.

Lemma keeps_registry_open {R} fn (tbl : sqlite_file -> option (table R)) set msg :
  (forall t f, projects (set t f) = projects f) ->
  keeps_registry
    (Database.init fn ;;;
     res <- Database.execute_sql fn (create_table tbl set) true ;;
     if res then ret tt else raise (DatabaseException msg)).
Proof.
  intros Hset.
  apply keeps_registry_bind; [apply keeps_registry_connect|]. intros _.
  apply keeps_registry_bind.
  - apply keeps_registry_execute. intros f rs f'. unfold create_table.
    destruct (tbl f); intros [= <- <-]; auto.
  - intros []; [apply keeps_registry_ret|apply keeps_registry_raise].
Qed.

Lemma keeps_registry_ScanDatabase fn : keeps_registry (ScanDatabase.init fn).
Proof.
  unfold ScanDatabase.init.
  apply keeps_registry_bind;
    [apply (keeps_registry_open fn items set_items); reflexivity|intros _].
  apply keeps_registry_bind;
    [apply (keeps_registry_open fn attacks set_attacks); reflexivity|intros _].
  apply keeps_registry_bind;
    [apply (keeps_registry_open fn hosts set_hosts); reflexivity|intros _].
  apply (keeps_registry_open fn imports set_imports); reflexivity.
Qed.

Lemma create_project_run name w :
  exists r',
    ProjectDatabase.create_project name w
    = let db := data_path (token (rng w) +:+ ".sqlite") in
      except_DatabaseException
        (ScanDatabase.init db ;;;
         Database.execute_sql PRJ_FILE
           (modify projects set_projects
              (insert_row project_id
                 (fun i => {| project_id := i; project_name := name;
                              project_note := None; project_dbfile := db |})))
           true)
        (ret false) (set_rng r' w).
Proof.
  unfold ProjectDatabase.create_project. unfold bind at 1.
  destruct (random_choices_run (List.seq 0 12) w) as (r' & ->).
  exists r'. reflexivity.
Qed.

(** A successful [create_project] found the registry open and appended one
    row to it, whose store path is built from the token just drawn. *)
Lemma create_project_true_inv name w :
  result (ProjectDatabase.create_project name w) = Ret true ->
  exists t,
    registry w = Some t
    /\ registry (final (ProjectDatabase.create_project name w))
       = Some (insert_row project_id
                 (fun i => {| project_id := i; project_name := name;
                              project_note := None;
                              project_dbfile :=
                                data_path (token (rng w) +:+ ".sqlite") |}) t).
Proof.
  destruct (create_project_run name w) as (r' & ->).
  cbv zeta. set (db := data_path (token (rng w) +:+ ".sqlite")).
  unfold except_DatabaseException, bind.
  pose proof (keeps_registry_ScanDatabase db (set_rng r' w)) as Hk.
  unfold final in Hk.
  destruct (ScanDatabase.init db (set_rng r' w)) as [[[]|e] wa]; simpl in Hk.
  - destruct (Database.execute_sql PRJ_FILE _ true wa) as [[b|e] w1] eqn:Hx;
      simpl; [|destruct e; simpl; discriminate].
    intros [= ->].
    apply execute_sql_true_inv in Hx as (f & rs & f' & Hf & Hs & ->).
    unfold modify in Hs. destruct (projects f) as [t|] eqn:Ht; [|discriminate].
    injection Hs as <- <-.
    exists t. split.
    + change (registry (set_rng r' w)) with (registry w) in Hk.
      rewrite <- Hk. unfold registry. rewrite Hf. exact Ht.
    + unfold registry. cbn [files set_cur set_files set_faults].
      rewrite lookup_insert_eq. reflexivity.
  - destruct e; simpl; discriminate.
Qed.

Lemma append_inj_same_length (a b s s' : string) :
  String.length a = String.length b -> a +:+ s = b +:+ s' -> a = b.
Proof.
  revert b. induction a as [|c a IH]; intros [|d b]; simpl; try discriminate.
  - reflexivity.
  - intros [= Hl] [= -> H]. f_equal. apply IH; assumption.
Qed.

Lemma token_length r : String.length (token r) = 12%nat.
Proof.
  unfold token.
  assert (H : forall l, String.length (string_of_list_ascii l) = length l).
  { induction l; simpl; congruence. }
  rewrite H, length_map.
  generalize 12%nat. intros k. revert r.
  induction k; intros r; simpl; congruence.
Qed.

Lemma store_path_inj r r' :
  data_path (token r +:+ ".sqlite") = data_path (token r' +:+ ".sqlite")
  <-> token r = token r'.
Proof.
  split; [|intros ->; reflexivity].
  unfold data_path. intros H.
  apply (append_inj_same_length _ _ ".sqlite" ".sqlite").
  - rewrite !token_length. reflexivity.
  - revert H. generalize (token r +:+ ".sqlite") (token r' +:+ ".sqlite").
    intros a b [= H]. exact H.
Qed.

(** C4, as amended: each successful [create_project] appends one registry
    row whose store path is data/<token>.sqlite for the 12 hexadecimal digits
    it drew; the store paths of two successful calls differ exactly when
    their tokens differ.  Nothing checks a new token against the registry. *)
Theorem create_project_store_paths_differ_iff_tokens_differ n1 n2 w w' :
  result (ProjectDatabase.create_project n1 w) = Ret true ->
  result (ProjectDatabase.create_project n2 w') = Ret true ->
  exists t t' p1 p2,
    registry w = Some t /\ registry w' = Some t'
    /\ option_map rows (registry (final (ProjectDatabase.create_project n1 w)))
       = Some (rows t ++ [p1])%list
    /\ option_map rows (registry (final (ProjectDatabase.create_project n2 w')))
       = Some (rows t' ++ [p2])%list
    /\ project_dbfile p1 = data_path (token (rng w) +:+ ".sqlite")
    /\ project_dbfile p2 = data_path (token (rng w') +:+ ".sqlite")
    /\ (project_dbfile p1 <> project_dbfile p2 <-> token (rng w) <> token (rng w')).
Proof.
  intros H1 H2.
  apply create_project_true_inv in H1 as (t & Ht & ->).
  apply create_project_true_inv in H2 as (t' & Ht' & ->).
  exists t, t'. do 2 eexists.
  split; [exact Ht|]. split; [exact Ht'|].
  split; [reflexivity|]. split; [reflexivity|].
  split; [reflexivity|]. split; [reflexivity|].
  simpl. rewrite store_path_inj. tauto.
Qed.

Lemma create_project_store_paths_differ_iff_tokens_differ_witness :
  let w := varying_generator in
  let w' := final (ProjectDatabase.create_project "alpha" w) in
  exists t t' p1 p2,
    registry w = Some t /\ registry w' = Some t'
    /\ option_map rows (registry (final (ProjectDatabase.create_project "alpha" w)))
       = Some (rows t ++ [p1])%list
    /\ option_map rows (registry (final (ProjectDatabase.create_project "beta" w')))
       = Some (rows t' ++ [p2])%list
    /\ project_dbfile p1 = data_path (token (rng w) +:+ ".sqlite")
    /\ project_dbfile p2 = data_path (token (rng w') +:+ ".sqlite")
    /\ (project_dbfile p1 <> project_dbfile p2 <-> token (rng w) <> token (rng w')).
Proof.
  apply (create_project_store_paths_differ_iff_tokens_differ "alpha" "beta"
           varying_generator
           (final (ProjectDatabase.create_project "alpha" varying_generator)));
    vm_compute; reflexivity.
Defined.

(** C4 fails as stated: when the generator draws the same twelve digits
    twice, both calls succeed and the registry holds two live projects with
    one and the same store path. *)
Lemma create_project_can_share_a_store_path :
  let r1 := ProjectDatabase.create_project "alpha" repeating_generator in
  let r2 := ProjectDatabase.create_project "beta" (final r1) in
  result r1 = Ret true /\ result r2 = Ret true
  /\ option_map (fun t => map (fun p => (project_name p, project_dbfile p)) (rows t))
       (registry (final r2))
     = Some [("alpha", "data/3a7f00c41b92.sqlite");
             ("beta", "data/3a7f00c41b92.sqlite")].
Proof. vm_compute. repeat split; reflexivity. Qed.

(** ** Attack store *)

Lemma str_split_free sep x : free_of sep x = true -> str_split sep x = [x].
Proof.
  induction x as [|c x IH]; simpl; [reflexivity|].
  intros [Hc Hx]%andb_true_iff. apply negb_true_iff in Hc.
  rewrite Hc, (IH Hx). reflexivity.
Qed.

Lemma str_split_app sep x rest :
  free_of sep x = true ->
  str_split sep (x +:+ String sep rest) = x :: str_split sep rest.
Proof.
  induction x as [|c x IH]; simpl.
  - intros _. rewrite Ascii.eqb_refl. reflexivity.
  - intros [Hc Hx]%andb_true_iff. apply negb_true_iff in Hc.
    rewrite Hc, (IH Hx). reflexivity.
Qed.

(** Joining a non-empty list of comma-free references and splitting the
    result gives the list back. *)
Lemma str_split_concat (l : list string) :
  l <> [] -> List.Forall (fun x => free_of "," x = true) l ->
  str_split "," (String.concat "," l) = l.
Proof.
  induction l as [|x l IH]; [congruence|]. intros _ Hall.
  inversion Hall as [|? ? Hx Hl]; subst.
  destruct l as [|y l].
  - simpl. apply str_split_free, Hx.
  - change (String.concat "," (x :: y :: l))
      with (x +:+ String "," (String.concat "," (y :: l))).
    rewrite (str_split_app _ _ _ Hx), IH; [reflexivity|discriminate|exact Hl].
Qed.

Lemma fold_max_ge (l : list Z) (b : Z) :
  b <= fold_right Z.max b l /\ forall x, In x l -> x <= fold_right Z.max b l.
Proof.
  induction l as [|y l [IHb IHl]]; simpl.
  - split; [lia|tauto].
  - split; [lia|]. intros x [->|Hx]; [lia|]. specialize (IHl x Hx). lia.
Qed.

(** The rowid of the next insert is larger than every rowid in the table. *)
Lemma next_id_fresh {R} (key : R -> Z) (t : table R) r :
  In r (rows t) -> key r < next_id key t.
Proof.
  intros Hr. unfold next_id.
  destruct (fold_max_ge (map key (rows t)) (last_rowid t)) as [_ H].
  specialize (H (key r) (in_map key _ _ Hr)). lia.
Qed.

Lemma get_attack_run fn aid w t :
  healthy w -> attacks_at fn w t ->
  result (AttackDatabase.get_attack fn aid w)
  = Ret (hd_error
           (map (fun a => [("id", VInt (attack_id a));
                           ("name", VStr (attack_name a));
                           ("description", VStr (attack_description a));
                           ("items", VStr (attack_items a));
                           ("note", VStr (attack_note a))])
              (List.filter (fun a => Z.eqb (attack_id a) aid) (rows t)))).
Proof.
  intros Hh (f & Hf & Ht). unfold AttackDatabase.get_attack, bind.
  rewrite (execute_select_ok fn attacks _ false w f t Hh Hf Ht).
  unfold Database.fetchone. simpl.
  destruct (map _ _); reflexivity.
Qed.

Lemma read_items_run fn aid w t a :
  healthy w -> attacks_at fn w t ->
  List.filter (fun a => Z.eqb (attack_id a) aid) (rows t) = [a] ->
  result (read_items fn aid w) = Ret (str_split "," (attack_items a)).
Proof.
  intros Hh Ht Hsel.
  pose proof (get_attack_run fn aid w t Hh Ht) as Hrun.
  rewrite Hsel in Hrun. simpl in Hrun.
  unfold read_items, bind. unfold result in *.
  destruct (AttackDatabase.get_attack fn aid w) as [o w1]. simpl in Hrun.
  subst o. reflexivity.
Qed.

(** C5, as amended: for a non-empty list of references none of which contains
    a comma, [create_attack] followed by [get_attack] on the new id and a
    split of the items field on the comma gives the list back, and so does
    [update_attack_hosts] on that id followed by the same reading. *)
Theorem attack_items_round_trip fn name description its its2 w t :
  healthy w -> attacks_at fn w t ->
  its <> [] -> List.Forall (fun x => free_of "," x = true) its ->
  its2 <> [] -> List.Forall (fun x => free_of "," x = true) its2 ->
  let aid := next_id attack_id t in
  let w1 := final (AttackDatabase.create_attack fn name description its w) in
  let w2 := final (AttackDatabase.update_attack_hosts fn aid its2 w1) in
  result (AttackDatabase.create_attack fn name description its w) = Ret true
  /\ result (read_items fn aid w1) = Ret its
  /\ result (AttackDatabase.update_attack_hosts fn aid its2 w1) = Ret true
  /\ result (read_items fn aid w2) = Ret its2.
Proof.
  intros Hh (f & Hf & Ht) Hne Hfree Hne2 Hfree2 aid w1 w2.
  assert (Hold : List.filter (fun a => Z.eqb (attack_id a) aid) (rows t) = []).
  { apply filter_none. intros a Ha. apply Z.eqb_neq.
    pose proof (next_id_fresh attack_id t a Ha). unfold aid. lia. }
  subst w2 w1. unfold AttackDatabase.create_attack.
  rewrite (execute_modify_ok fn attacks set_attacks _ true w f t Hh Hf Ht).
  cbn [result final fst snd].
  set (w1 := set_cur [] (set_files _ w)).
  assert (Hh1 : healthy w1) by exact Hh.
  assert (Hf1 : files w1 !! fn
                = Some (set_attacks
                          (insert_row attack_id
                             (fun i => {| attack_id := i; attack_name := name;
                                          attack_description := description;
                                          attack_items := String.concat "," its;
                                          attack_note := "" |}) t) f)).
  { apply lookup_insert_eq. }
  split; [reflexivity|]. split; [|split].
  - rewrite (read_items_run fn aid w1 _
               {| attack_id := aid; attack_name := name;
                  attack_description := description;
                  attack_items := String.concat "," its;
                  attack_note := "" |} Hh1 (ex_intro _ _ (conj Hf1 eq_refl))).
    + cbn [attack_items]. rewrite str_split_concat by assumption. reflexivity.
    + cbn [rows insert_row]. rewrite List.filter_app, Hold. simpl.
      fold aid. rewrite Z.eqb_refl. reflexivity.
  - unfold AttackDatabase.update_attack_hosts.
    erewrite (execute_modify_ok fn attacks set_attacks _ true w1 _ _ Hh1 Hf1);
      reflexivity.
  - unfold AttackDatabase.update_attack_hosts.
    erewrite (execute_modify_ok fn attacks set_attacks _ true w1 _ _ Hh1 Hf1);
      [|reflexivity].
    cbn [final snd].
    set (w2 := set_cur [] (set_files _ w1)).
    assert (Hf2 : attacks_at fn w2
                    (update_rows
                       (fun a => if Z.eqb (attack_id a) aid
                                 then {| attack_id := attack_id a;
                                         attack_name := attack_name a;
                                         attack_description := attack_description a;
                                         attack_items := String.concat "," its2;
                                         attack_note := attack_note a |}
                                 else a)
                       (insert_row attack_id
                          (fun i => {| attack_id := i; attack_name := name;
                                       attack_description := description;
                                       attack_items := String.concat "," its;
                                       attack_note := "" |}) t))).
    { eexists. split; [apply lookup_insert_eq|reflexivity]. }
    rewrite (read_items_run fn aid w2 _
               {| attack_id := aid; attack_name := name;
                  attack_description := description;
                  attack_items := String.concat "," its2;
                  attack_note := "" |} Hh Hf2).
    + cbn [attack_items]. rewrite str_split_concat by assumption. reflexivity.
    + cbn [rows insert_row update_rows]. rewrite map_app, List.filter_app.
      rewrite (filter_none _ (map _ (rows t))).
      * simpl. fold aid. rewrite Z.eqb_refl. simpl. rewrite Z.eqb_refl.
        reflexivity.
      * intros a (a0 & <- & Ha0)%in_map_iff.
        pose proof (next_id_fresh attack_id t a0 Ha0) as Hlt. fold aid in Hlt.
        assert (E : Z.eqb (attack_id a0) aid = false) by (apply Z.eqb_neq; lia).
        rewrite E. exact E.
Qed.

Lemma attack_items_round_trip_witness :
  let fn := "data/p.sqlite" in
  let w := one_file fn new_store in
  let w1 := final (AttackDatabase.create_attack fn "smb" "SMB signing"
                     ["10.0.0.1"; "10.0.0.2"] w) in
  let w2 := final (AttackDatabase.update_attack_hosts fn 1 ["10.0.0.3"] w1) in
  result (AttackDatabase.create_attack fn "smb" "SMB signing"
            ["10.0.0.1"; "10.0.0.2"] w) = Ret true
  /\ result (read_items fn 1 w1) = Ret ["10.0.0.1"; "10.0.0.2"]
  /\ result (AttackDatabase.update_attack_hosts fn 1 ["10.0.0.3"] w1) = Ret true
  /\ result (read_items fn 1 w2) = Ret ["10.0.0.3"].
Proof.
  apply (attack_items_round_trip "data/p.sqlite" "smb" "SMB signing"
           ["10.0.0.1"; "10.0.0.2"] ["10.0.0.3"]
           (one_file "data/p.sqlite" new_store) empty_table).
  - reflexivity.
  - exists new_store. split; reflexivity.
  - discriminate.
  - repeat constructor.
  - discriminate.
  - repeat constructor.
Defined.

(** C5 fails as stated on the empty list of references, which is a list of
    non-empty comma-free references: it is stored as the empty string, and
    the empty string splits into one empty reference. *)
Lemma attack_items_empty_list_reads_back_one_blank :
  let fn := "data/p.sqlite" in
  result ((AttackDatabase.create_attack fn "smb" "SMB signing" [] ;;;
           read_items fn 1) (one_file fn new_store))
  = Ret [""]
  /\ [""] <> @nil string.
Proof. split; [vm_compute; reflexivity|discriminate]. Qed.

(** ** Item store *)

Lemma bind_run {A B} (m : M A) (k : A -> M B) w a w' :
  m w = (Ret a, w') -> bind m k w = k a w'.
Proof. intros H. unfold bind. rewrite H. reflexivity. Qed.

Lemma mapM_ret {A B} (f : A -> M B) (g : A -> B) l :
  (forall x w, In x l -> f x w = (Ret (g x), w)) ->
  forall w, mapM f l w = (Ret (map g l), w).
Proof.
  induction l as [|x l IH]; intros Hf w; simpl; [reflexivity|].
  rewrite (bind_run _ _ w (g x) w) by (apply Hf; left; reflexivity).
  rewrite (bind_run _ _ w (map g l) w); [reflexivity|].
  apply IH. intros y w0 Hy. apply Hf. right. exact Hy.
Qed.

(** A SELECT followed by a comprehension over [fetchall]. *)
Lemma select_comprehension_run {R B C} fn (tbl : sqlite_file -> option (table R))
    (q : list R -> list Row) (f : Row -> M B) (g : Row -> B) (k : list B -> M C)
    c w file t :
  healthy w -> files w !! fn = Some file -> tbl file = Some t ->
  (forall x w0, In x (q (rows t)) -> f x w0 = (Ret (g x), w0)) ->
  (ok <- Database.execute_sql fn (select tbl q) c ;;
   xs <- (if ok then rs <- Database.fetchall ;; mapM f rs else ret []) ;;
   k xs) w
  = k (map g (q (rows t))) (set_cur [] w).
Proof.
  intros Hh Hf Ht Hfg.
  rewrite (bind_run _ _ w true (set_cur (q (rows t)) w))
    by (apply (execute_select_ok fn tbl q c w file t); assumption).
  rewrite (bind_run _ _ _ (map g (q (rows t))) (set_cur [] w)); [reflexivity|].
  rewrite (bind_run _ _ _ (q (rows t)) (set_cur [] w)).
  - apply mapM_ret. exact Hfg.
  - unfold Database.fetchall. destruct w; reflexivity.
Qed.

Lemma get_summary_run fn w t :
  healthy w -> items_at fn w t ->
  let ports proto :=
    distinct_sorted Z.ltb
      (map item_port
         (List.filter (fun h => negb (Z.eqb (item_port h) 0)
                                && String.eqb (item_protocol h) proto) (rows t))) in
  result (ItemDatabase.get_summary fn w)
  = Ret {| s_hosts := map endpoint
                        (List.filter (fun h => negb (Z.eqb (item_port h) 0)) (rows t));
           s_ips := map VStr (distinct String.eqb (map item_ip (rows t)));
           s_tcp := map VInt (ports "tcp");
           s_udp := map VInt (ports "udp") |}.
Proof.
  intros Hh (f & Hf & Ht) ports. unfold ItemDatabase.get_summary.
  rewrite (select_comprehension_run fn items _ _ (fun r => r) _ true w f t Hh Hf Ht).
  2:{ intros x w0 (h & <- & _)%in_map_iff. reflexivity. }
  rewrite (select_comprehension_run fn items _ _
             (fun r => match r with [(_, v)] => v | _ => VNone end)
             _ true (set_cur [] w) f t Hh Hf Ht).
  2:{ intros x w0 (h & <- & _)%in_map_iff. reflexivity. }
  unfold ItemDatabase.select_ports.
  rewrite (select_comprehension_run fn items _ _
             (fun r => match r with [(_, v)] => v | _ => VNone end)
             _ true (set_cur [] (set_cur [] w)) f t Hh Hf Ht).
  2:{ intros x w0 (h & <- & _)%in_map_iff. reflexivity. }
  rewrite (select_comprehension_run fn items _ _
             (fun r => match r with [(_, v)] => v | _ => VNone end)
             _ true (set_cur [] (set_cur [] (set_cur [] w))) f t Hh Hf Ht).
  2:{ intros x w0 (h & <- & _)%in_map_iff. reflexivity. }
  unfold result, ret. cbn [fst]. rewrite !map_map. reflexivity.
Qed.

Lemma distinct_In (l : list string) a :
  In a (distinct String.eqb l) <-> In a l.
Proof.
  induction l as [|x l IH]; simpl; [tauto|].
  rewrite filter_In, IH, negb_true_iff, String.eqb_neq.
  destruct (String.eqb_spec x a); intuition congruence.
Qed.

Lemma distinct_NoDup (l : list string) : List.NoDup (distinct String.eqb l).
Proof.
  induction l as [|x l IH]; simpl; constructor.
  - rewrite filter_In, String.eqb_refl. intros [_ H]. discriminate.
  - apply List.NoDup_filter, IH.
Qed.

(** An ascending list without repetition is determined by its members. *)
Lemma sorted_singleton (l : list Z) x :
  StronglySorted Z.lt l -> (forall p, In p l <-> p = x) -> l = [x].
Proof.
  intros Hs Hin. destruct l as [|y l].
  - exfalso. apply (proj2 (Hin x) eq_refl).
  - assert (y = x) by (apply Hin; left; reflexivity). subst y.
    destruct l as [|z l]; [reflexivity|].
    assert (z = x) by (apply Hin; right; left; reflexivity). subst z.
    inversion Hs as [|? ? _ Hall]; subst.
    inversion Hall; subst. lia.
Qed.

(** C7: on an open item store, [get_summary] lists the endpoints of the rows
    with a non-zero port; one address per distinct address of all rows, port
    0 included; and for tcp and for udp the non-zero ports of that protocol,
    in strictly ascending order.  On the rows (A,80,tcp), (A,53,udp),
    (B,0,tcp) that is the addresses A and B, the tcp ports [80] and the udp
    ports [53]. *)
Theorem get_summary_lists_addresses_and_sorted_nonzero_ports fn w t :
  healthy w -> items_at fn w t ->
  exists ips tcp udp,
    result (ItemDatabase.get_summary fn w)
    = Ret {| s_hosts := map endpoint
                          (List.filter (fun h => negb (Z.eqb (item_port h) 0)) (rows t));
             s_ips := map VStr ips;
             s_tcp := map VInt tcp;
             s_udp := map VInt udp |}
    /\ List.NoDup ips
    /\ (forall a, In a ips <-> exists h, In h (rows t) /\ item_ip h = a)
    /\ StronglySorted Z.lt tcp
    /\ (forall p, In p tcp <->
                  exists h, In h (rows t) /\ item_port h = p /\ p <> 0
                            /\ item_protocol h = "tcp")
    /\ StronglySorted Z.lt udp
    /\ (forall p, In p udp <->
                  exists h, In h (rows t) /\ item_port h = p /\ p <> 0
                            /\ item_protocol h = "udp")
    /\ (forall A B,
          map (fun h => (item_ip h, item_port h, item_protocol h)) (rows t)
          = [(A, 80, "tcp"); (A, 53, "udp"); (B, 0, "tcp")] ->
          (forall a, In a ips <-> a = A \/ a = B) /\ tcp = [80] /\ udp = [53]).
Proof.
  intros Hh Ht.
  pose proof (get_summary_run fn w t Hh Ht) as Hrun. cbv zeta in Hrun.
  set (ports := fun proto : string =>
         distinct_sorted Z.ltb
           (map item_port
              (List.filter (fun h => negb (Z.eqb (item_port h) 0)
                                     && String.eqb (item_protocol h) proto)
                 (rows t)))) in *.
  assert (Hsorted : forall proto, StronglySorted Z.lt (ports proto)).
  { intros proto. apply distinct_sorted_sorted.
    - apply Z.lt_strorder.
    - apply Z.ltb_lt.
    - apply Z_ltb_total. }
  assert (Hmem : forall proto p,
             In p (ports proto) <->
             exists h, In h (rows t) /\ item_port h = p /\ p <> 0
                       /\ item_protocol h = proto).
  { intros proto p. unfold ports.
    rewrite (distinct_sorted_In Z.ltb Z_ltb_total), in_map_iff.
    split.
    - intros (h & <- & Hin). apply filter_In in Hin as [Hin Hc].
      apply andb_true_iff in Hc as [Hp Hq].
      apply negb_true_iff, Z.eqb_neq in Hp. apply String.eqb_eq in Hq.
      exists h. auto.
    - intros (h & Hin & <- & Hp & Hq). exists h. split; [reflexivity|].
      apply filter_In. split; [exact Hin|].
      apply andb_true_iff. split.
      + apply negb_true_iff, Z.eqb_neq. exact Hp.
      + apply String.eqb_eq. exact Hq. }
  assert (Hips : forall a, In a (distinct String.eqb (map item_ip (rows t)))
                           <-> exists h, In h (rows t) /\ item_ip h = a).
  { intros a. rewrite distinct_In, in_map_iff. split.
    - intros (h & <- & Hin). eauto.
    - intros (h & Hin & <-). eauto. }
  exists (distinct String.eqb (map item_ip (rows t))), (ports "tcp"), (ports "udp").
  split; [exact Hrun|]. split; [apply distinct_NoDup|].
  split; [exact Hips|]. split; [apply Hsorted|]. split; [apply Hmem|].
  split; [apply Hsorted|]. split; [apply Hmem|].
  intros A B Hrows.
  destruct (rows t) as [|h1 [|h2 [|h3 [|h4 l]]]] eqn:Er; try discriminate.
  injection Hrows as Ha1 Hp1 Hq1 Ha2 Hp2 Hq2 Ha3 Hp3 Hq3.
  split; [|split].
  - intros a. rewrite Hips. split.
    + intros (h & [<-|[<-|[<-|[]]]] & <-); auto.
    + intros [-> | ->]; [exists h1|exists h3]; simpl; auto.
  - apply sorted_singleton; [apply Hsorted|]. intros p. rewrite Hmem. split.
    + intros (h & [<-|[<-|[<-|[]]]] & <- & Hnz & Hq); congruence.
    + intros ->. exists h1. simpl. repeat split; auto; discriminate.
  - apply sorted_singleton; [apply Hsorted|]. intros p. rewrite Hmem. split.
    + intros (h & [<-|[<-|[<-|[]]]] & <- & Hnz & Hq); congruence.
    + intros ->. exists h2. simpl. repeat split; auto; discriminate.
Qed.

Lemma get_summary_lists_addresses_and_sorted_nonzero_ports_witness :
  exists ips tcp udp,
    result (ItemDatabase.get_summary "data/p.sqlite" three_items)
    = Ret {| s_hosts := [ [("ip", VStr "10.0.0.1"); ("port", VInt 80);
                           ("protocol", VStr "tcp")];
                          [("ip", VStr "10.0.0.1"); ("port", VInt 53);
                           ("protocol", VStr "udp")] ];
             s_ips := map VStr ips;
             s_tcp := map VInt tcp;
             s_udp := map VInt udp |}
    /\ (forall a, In a ips <-> a = "10.0.0.1" \/ a = "10.0.0.2")
    /\ tcp = [80] /\ udp = [53].
Proof.
  assert (Hh : healthy three_items) by reflexivity.
  assert (Ht : items_at "data/p.sqlite" three_items
                 {| rows := [ {| item_id := 1; item_ip := "10.0.0.1"; item_port := 80;
                                 item_protocol := "tcp"; item_note := "http";
                                 item_hash := "a1" |};
                              {| item_id := 2; item_ip := "10.0.0.1"; item_port := 53;
                                 item_protocol := "udp"; item_note := "dns";
                                 item_hash := "b2" |};
                              {| item_id := 3; item_ip := "10.0.0.2"; item_port := 0;
                                 item_protocol := "tcp"; item_note := "";
                                 item_hash := "c3" |} ];
                    last_rowid := 3 |}).
  { eexists. split; vm_compute; reflexivity. }
  destruct (get_summary_lists_addresses_and_sorted_nonzero_ports
              "data/p.sqlite" three_items _ Hh Ht)
    as (ips & tcp & udp & Hrun & _ & _ & _ & _ & _ & _ & Hex).
  exists ips, tcp, udp. split; [exact Hrun|].
  apply (Hex "10.0.0.1" "10.0.0.2"). reflexivity.
Defined.

(** When the four checks pass, [create_item] is the INSERT. *)
Lemma create_item_valid_run valid fn ip port protocol note hash w :
  valid_ip valid ip = None -> valid_port valid port = None ->
  valid_protocol valid protocol = None -> valid_hash valid hash = None ->
  ItemDatabase.create_item valid fn ip port protocol note hash w
  = Database.execute_sql fn
      (modify items set_items
         (insert_row item_id
            (fun i => {| item_id := i; item_ip := ip; item_port := port;
                         item_protocol := protocol; item_note := note;
                         item_hash := hash |})))
      true w.
Proof.
  intros H1 H2 H3 H4.
  unfold ItemDatabase.create_item, except_AssertionError, bind.
  rewrite H1, H2, H3, H4. reflexivity.
Qed.

(** C8: when one of the four checks fails, [create_item] returns [False]
    without running any statement: the files, the cursor and the engine are
    as before, and the only trace is the error record. *)
Theorem create_item_rejects_invalid_input valid fn ip port protocol note hash w :
  valid_ip valid ip <> None \/ valid_port valid port <> None
  \/ valid_protocol valid protocol <> None \/ valid_hash valid hash <> None ->
  let r := ItemDatabase.create_item valid fn ip port protocol note hash w in
  result r = Ret false
  /\ files (final r) = files w
  /\ faults (final r) = faults w
  /\ cur (final r) = cur w
  /\ exists msg, errlog (final r) = (errlog w ++ [msg])%list.
Proof.
  intros H r. subst r.
  unfold ItemDatabase.create_item, except_AssertionError, bind, check.
  destruct (valid_ip valid ip) as [m1|]; [simpl; eauto 10|].
  destruct (valid_port valid port) as [m2|]; [simpl; eauto 10|].
  destruct (valid_protocol valid protocol) as [m3|]; [simpl; eauto 10|].
  destruct (valid_hash valid hash) as [m4|]; [simpl; eauto 10|].
  exfalso. intuition congruence.
Qed.

Lemma create_item_rejects_invalid_input_witness :
  let r := ItemDatabase.create_item port_range_only "data/p.sqlite"
             "10.0.0.1" 70000 "tcp" "http" "a1" three_items in
  result r = Ret false
  /\ files (final r) = files three_items
  /\ faults (final r) = faults three_items
  /\ cur (final r) = cur three_items
  /\ exists msg, errlog (final r) = (errlog three_items ++ [msg])%list.
Proof.
  apply (create_item_rejects_invalid_input port_range_only "data/p.sqlite"
           "10.0.0.1" 70000 "tcp" "http" "a1" three_items).
  right. left. discriminate.
Defined.

(** *** Keyword search *)








(** A list of more keywords than SQLite accepts clauses is answered with
    the empty list, whatever the notes are. *)
Lemma get_items_by_keywords_too_many fn kws w :
  (max_like_terms < length kws)%nat ->
  result (ItemDatabase.get_items_by_keywords fn (Some kws) w) = Ret [].
Proof.
  intros Hmax.
  unfold ItemDatabase.get_items_by_keywords, bind, Database.execute_sql,
    ItemDatabase.select_keywords.
  rewrite length_map, (proj2 (Nat.ltb_lt _ _) Hmax).
  destruct (faults w) as [|[] ?]; simpl; auto;
    destruct (files w !! fn); reflexivity.
Qed.





(** * Further properties of the stores *)

(** ** ORDER BY *)

Lemma str_leb_iff a b :
  str_leb a b = true <-> String_as_OT.lt a b \/ a = b.
Proof.
  unfold str_leb. rewrite negb_true_iff. split.
  - intros Hba. destruct (str_ltb a b) eqn:Hab.
    + left. apply str_ltb_lt, Hab.
    + right. apply str_ltb_total; assumption.
  - intros [Hlt | ->].
    + destruct (str_ltb b a) eqn:Hba; [|reflexivity].
      apply str_ltb_lt in Hba. exfalso.
      apply (StrictOrder_Irreflexive (R := String_as_OT.lt) a).
      etransitivity; eassumption.
    + destruct (str_ltb b b) eqn:Hbb; [|reflexivity].
      apply str_ltb_lt in Hbb. exfalso.
      apply (StrictOrder_Irreflexive (R := String_as_OT.lt) b Hbb).
Qed.

Lemma str_leb_trans a b c :
  str_leb a b = true -> str_leb b c = true -> str_leb a c = true.
Proof.
  rewrite !str_leb_iff. intros [H1 | ->] [H2 | ->]; auto.
  left. etransitivity; eassumption.
Qed.

Lemma str_leb_total a b : str_leb a b = false -> str_leb b a = true.
Proof.
  unfold str_leb. rewrite negb_false_iff, negb_true_iff. intros Hba.
  apply str_ltb_lt in Hba.
  destruct (str_ltb a b) eqn:Hab; [|reflexivity].
  apply str_ltb_lt in Hab. exfalso.
  apply (StrictOrder_Irreflexive (R := String_as_OT.lt) a).
  etransitivity; eassumption.
Qed.

Lemma insert_by_perm {R} (key : R -> string) x l :
  Permutation (insert_by key x l) (x :: l).
Proof.
  induction l as [|y l IH]; simpl; [reflexivity|].
  destruct (str_leb (key x) (key y)); [reflexivity|].
  rewrite IH. apply perm_swap.
Qed.

Lemma order_by_perm {R} (key : R -> string) l :
  Permutation (order_by key l) l.
Proof.
  induction l as [|x l IH]; simpl; [reflexivity|].
  rewrite insert_by_perm, IH. reflexivity.
Qed.

Lemma insert_by_ascending {R} (key : R -> string) x l :
  ascending_on key l -> ascending_on key (insert_by key x l).
Proof.
  unfold ascending_on. induction 1 as [|y l Hs IH Hall]; simpl.
  - repeat constructor.
  - destruct (str_leb (key x) (key y)) eqn:Hxy.
    + constructor; [constructor; assumption|].
      constructor; [exact Hxy|].
      rewrite List.Forall_forall in *. intros z Hz.
      eapply str_leb_trans; [exact Hxy|auto].
    + constructor; [exact IH|].
      rewrite List.Forall_forall in *. intros z Hz.
      apply (Permutation_in _ (insert_by_perm key x l)) in Hz as [<-|Hz]; auto.
      apply str_leb_total, Hxy.
Qed.

Lemma order_by_ascending {R} (key : R -> string) l :
  ascending_on key (order_by key l).
Proof.
  induction l as [|x l IH]; simpl.
  - constructor.
  - apply insert_by_ascending, IH.
Qed.

(** A SELECT followed by [fetchall]. *)
Lemma select_fetchall_run {R} fn (tbl : sqlite_file -> option (table R)) q c w f t :
  healthy w -> files w !! fn = Some f -> tbl f = Some t ->
  (ok <- Database.execute_sql fn (select tbl q) c ;;
   if ok then Database.fetchall else ret []) w
  = (Ret (q (rows t)), set_cur [] w).
Proof.
  intros Hh Hf Ht.
  rewrite (bind_run _ _ w true (set_cur (q (rows t)) w))
    by (apply (execute_select_ok fn tbl q c w f t); assumption).
  unfold Database.fetchall. destruct w; reflexivity.
Qed.

(** A SELECT, [fetchall] and a comprehension that reads one column. *)
Lemma select_column_run {R} fn (tbl : sqlite_file -> option (table R))
    (q : list R -> list R) (col : string) (v : R -> value) c w f t :
  healthy w -> files w !! fn = Some f -> tbl f = Some t ->
  (ok <- Database.execute_sql fn
           (select tbl (fun rs => map (fun r => [(col, v r)]) (q rs))) c ;;
   if ok then
     rs <- Database.fetchall ;;
     mapM (fun r => Database.getitem (Some r) col) rs
   else ret []) w
  = (Ret (map v (q (rows t))), set_cur [] w).
Proof.
  intros Hh Hf Ht.
  rewrite (bind_run _ _ w true
             (set_cur (map (fun r => [(col, v r)]) (q (rows t))) w))
    by (apply (execute_select_ok fn tbl
                 (fun rs => map (fun r => [(col, v r)]) (q rs)) c w f t);
        assumption).
  rewrite (bind_run _ _ _ (map (fun r => [(col, v r)]) (q (rows t))) (set_cur [] w))
    by (unfold Database.fetchall; destruct w; reflexivity).
  rewrite (mapM_ret _ (fun r : Row => match r with
                                      | [(_, x)] => x
                                      | _ => VNone
                                      end)).
  - rewrite map_map. reflexivity.
  - intros x w0 (r & <- & _)%in_map_iff.
    unfold Database.getitem. simpl. rewrite String.eqb_refl. reflexivity.
Qed.

(** ** Host store, continued *)

Lemma noted_first (ip note : string) (l : list host) :
  (exists h, In h l /\ host_ip h = ip) ->
  hd_error
    (map (fun h => [("note", of_option (host_note h))])
       (List.filter (fun h => String.eqb (host_ip h) ip)
          (map (fun h => if String.eqb (host_ip h) ip
                         then {| host_id := host_id h; host_ip := host_ip h;
                                 host_note := Some note |}
                         else h) l)))
  = Some [("note", VStr note)].
Proof.
  induction l as [|x l IH]; intros (h & Hin & Hip).
  - destruct Hin.
  - simpl. destruct (String.eqb (host_ip x) ip) eqn:E; simpl; rewrite E.
    + reflexivity.
    + apply IH. destruct Hin as [-> | Hin]; [|eauto].
      apply String.eqb_neq in E. congruence.
Qed.

(** After a successful [update_host_note ip note], [get_host_note ip]
    returns [note] as soon as the hosts table has a row for [ip], however
    many rows share the address. *)
Theorem update_host_note_then_get_host_note fn ip note w t :
  healthy w -> hosts_at fn w t ->
  (exists h, In h (rows t) /\ host_ip h = ip) ->
  result ((HostDatabase.update_host_note fn ip note ;;;
           HostDatabase.get_host_note fn ip) w)
  = Ret (VStr note).
Proof.
  intros Hh (f & Hf & Ht) Hex.
  unfold HostDatabase.update_host_note.
  rewrite (bind_run _ _ w true _
             (execute_modify_ok fn hosts set_hosts _ true w f t Hh Hf Ht)).
  set (w1 := set_cur [] _).
  unfold HostDatabase.get_host_note.
  rewrite (bind_run _ _ w1 true _
             (execute_select_ok fn hosts _ true w1 _ _ Hh
                (lookup_insert_eq _ _ _) eq_refl)).
  cbn [rows update_rows].
  pose proof (noted_first ip note (rows t) Hex) as Hn.
  unfold bind, Database.fetchone, result. simpl.
  destruct (map _ _) as [|r rs]; [discriminate|].
  injection Hn as ->. reflexivity.
Qed.

Lemma update_host_note_then_get_host_note_witness :
  let fn := "data/p.sqlite" in
  let w := final (mapM (HostDatabase.create_host fn)
                    ["10.0.0.1"; "10.0.0.2"; "10.0.0.1"]
                    (one_file fn new_store)) in
  result ((HostDatabase.update_host_note fn "10.0.0.1" "foo" ;;;
           HostDatabase.get_host_note fn "10.0.0.1") w)
  = Ret (VStr "foo").
Proof.
  intros fn w.
  apply (update_host_note_then_get_host_note fn "10.0.0.1" "foo" w
           {| rows := [ {| host_id := 1; host_ip := "10.0.0.1"; host_note := None |};
                        {| host_id := 2; host_ip := "10.0.0.2"; host_note := None |};
                        {| host_id := 3; host_ip := "10.0.0.1"; host_note := None |} ];
              last_rowid := 3 |}).
  - reflexivity.
  - eexists. split; vm_compute; reflexivity.
  - eexists. split; [left; reflexivity|reflexivity].
Defined.

(** [get_host_ip ip] returns the address once for every hosts row that
    carries it: the empty list exactly when the address is unknown, and
    several entries when it was created several times. *)
Theorem get_host_ip_lists_one_entry_per_row fn ip w t :
  healthy w -> hosts_at fn w t ->
  result (HostDatabase.get_host_ip fn ip w)
  = Ret (repeat (VStr ip)
           (length (List.filter (fun h => String.eqb (host_ip h) ip) (rows t)))).
Proof.
  intros Hh (f & Hf & Ht). unfold HostDatabase.get_host_ip.
  rewrite (select_column_run fn hosts
             (List.filter (fun h => String.eqb (host_ip h) ip))
             "ip" (fun h => VStr (host_ip h)) true w f t Hh Hf Ht).
  unfold result. cbn [fst]. f_equal.
  induction (rows t) as [|h l IH]; simpl; [reflexivity|].
  destruct (String.eqb_spec (host_ip h) ip) as [E|E]; simpl; [|exact IH].
  rewrite E, IH. reflexivity.
Qed.

Lemma get_host_ip_lists_one_entry_per_row_witness :
  let fn := "data/p.sqlite" in
  let w := final (mapM (HostDatabase.create_host fn)
                    ["10.0.0.1"; "10.0.0.2"; "10.0.0.1"]
                    (one_file fn new_store)) in
  result (HostDatabase.get_host_ip fn "10.0.0.1" w)
  = Ret [VStr "10.0.0.1"; VStr "10.0.0.1"].
Proof.
  intros fn w.
  apply (get_host_ip_lists_one_entry_per_row fn "10.0.0.1" w
           {| rows := [ {| host_id := 1; host_ip := "10.0.0.1"; host_note := None |};
                        {| host_id := 2; host_ip := "10.0.0.2"; host_note := None |};
                        {| host_id := 3; host_ip := "10.0.0.1"; host_note := None |} ];
              last_rowid := 3 |}).
  - reflexivity.
  - eexists. split; vm_compute; reflexivity.
Defined.

(** [get_host_notes] lists every hosts row, duplicates of an address
    included, as its address and note, ascending on the address. *)
Theorem get_host_notes_lists_every_row_by_address fn w t :
  healthy w -> hosts_at fn w t ->
  exists l,
    result (HostDatabase.get_host_notes fn w)
    = Ret (map (fun h => [("ip", VStr (host_ip h));
                          ("note", of_option (host_note h))]) l)
    /\ Permutation l (rows t)
    /\ ascending_on host_ip l.
Proof.
  intros Hh (f & Hf & Ht). unfold HostDatabase.get_host_notes.
  rewrite (select_fetchall_run fn hosts _ true w f t Hh Hf Ht).
  exists (order_by host_ip (rows t)). split; [reflexivity|]. split.
  - apply order_by_perm.
  - apply order_by_ascending.
Qed.

Lemma get_host_notes_lists_every_row_by_address_witness :
  let fn := "data/p.sqlite" in
  let w := final (mapM (HostDatabase.create_host fn)
                    ["10.0.0.2"; "10.0.0.1"; "10.0.0.2"]
                    (one_file fn new_store)) in
  exists l,
    result (HostDatabase.get_host_notes fn w)
    = Ret (map (fun h => [("ip", VStr (host_ip h));
                          ("note", of_option (host_note h))]) l)
    /\ Permutation l
         [ {| host_id := 1; host_ip := "10.0.0.2"; host_note := None |};
           {| host_id := 2; host_ip := "10.0.0.1"; host_note := None |};
           {| host_id := 3; host_ip := "10.0.0.2"; host_note := None |} ]
    /\ ascending_on host_ip l.
Proof.
  intros fn w.
  apply (get_host_notes_lists_every_row_by_address fn w
           {| rows := [ {| host_id := 1; host_ip := "10.0.0.2"; host_note := None |};
                        {| host_id := 2; host_ip := "10.0.0.1"; host_note := None |};
                        {| host_id := 3; host_ip := "10.0.0.2"; host_note := None |} ];
              last_rowid := 3 |}).
  - reflexivity.
  - eexists. split; vm_compute; reflexivity.
Defined.

(** ** Import store *)

(** Recording a file and listing the imports gives the file names recorded
    so far and the new one, each as often as it was recorded, ascending. *)
Theorem add_import_file_then_get_imported_files fn file w t :
  healthy w -> imports_at fn w t ->
  exists l,
    result ((ImportDatabase.add_import_file fn file ;;;
             ImportDatabase.get_imported_files fn) w)
    = Ret (map VStr l)
    /\ Permutation l (map import_filename (rows t) ++ [file])%list
    /\ ascending_on (fun x => x) l.
Proof.
  intros Hh (f & Hf & Ht). unfold ImportDatabase.add_import_file.
  rewrite (bind_run _ _ w true _
             (execute_modify_ok fn imports set_imports _ true w f t Hh Hf Ht)).
  set (w1 := set_cur [] _).
  unfold ImportDatabase.get_imported_files.
  rewrite (select_column_run fn imports (order_by import_filename)
             "filename" (fun p => VStr (import_filename p)) true w1 _ _ Hh
             (lookup_insert_eq _ _ _) eq_refl).
  cbn [rows insert_row result fst].
  set (rs := (rows t ++ _)%list).
  exists (map import_filename (order_by import_filename rs)).
  split; [rewrite map_map; reflexivity|]. split.
  - rewrite (order_by_perm import_filename rs). unfold rs.
    rewrite map_app. reflexivity.
  - pose proof (order_by_ascending import_filename rs) as Hs.
    unfold ascending_on in *.
    induction Hs as [|x l Hs IH Hall]; simpl; constructor; auto.
    rewrite List.Forall_forall in *. intros y (z & <- & Hz)%in_map_iff. auto.
Qed.

Lemma add_import_file_then_get_imported_files_witness :
  let fn := "data/p.sqlite" in
  let w := final ((ImportDatabase.add_import_file fn "scan2.xml" ;;;
                   ImportDatabase.add_import_file fn "scan1.xml")
                    (one_file fn new_store)) in
  exists l,
    result ((ImportDatabase.add_import_file fn "scan2.xml" ;;;
             ImportDatabase.get_imported_files fn) w)
    = Ret (map VStr l)
    /\ Permutation l (["scan2.xml"; "scan1.xml"] ++ ["scan2.xml"])%list
    /\ ascending_on (fun x => x) l.
Proof.
  intros fn w.
  apply (add_import_file_then_get_imported_files fn "scan2.xml" w
           {| rows := [ {| import_id := 1; import_filename := "scan2.xml" |};
                        {| import_id := 2; import_filename := "scan1.xml" |} ];
              last_rowid := 2 |}).
  - reflexivity.
  - eexists. split; vm_compute; reflexivity.
Defined.

(** ** Item store, continued *)

Lemma create_item_run valid fn ip port protocol note hash w f t :
  healthy w -> files w !! fn = Some f -> items f = Some t ->
  valid_ip valid ip = None -> valid_port valid port = None ->
  valid_protocol valid protocol = None -> valid_hash valid hash = None ->
  ItemDatabase.create_item valid fn ip port protocol note hash w
  = (Ret true,
     set_cur []
       (set_files
          (<[fn := set_items
                     (insert_row item_id
                        (fun i => {| item_id := i; item_ip := ip; item_port := port;
                                     item_protocol := protocol; item_note := note;
                                     item_hash := hash |}) t) f]> (files w)) w)).
Proof.
  intros Hh Hf Ht H1 H2 H3 H4.
  rewrite (create_item_valid_run valid fn ip port protocol note hash w H1 H2 H3 H4).
  apply (execute_modify_ok fn items set_items _ true w f t Hh Hf Ht).
Qed.

Lemma filter_new_id {R} (key : R -> Z) (mk : Z -> R) (t : table R) :
  key (mk (next_id key t)) = next_id key t ->
  List.filter (fun r => Z.eqb (key r) (next_id key t)) (rows (insert_row key mk t))
  = [mk (next_id key t)].
Proof.
  intros Hk. cbn [rows insert_row]. rewrite List.filter_app.
  rewrite filter_none.
  - simpl. rewrite Hk, Z.eqb_refl. reflexivity.
  - intros r Hr. apply Z.eqb_neq.
    pose proof (next_id_fresh key t r Hr). lia.
Qed.

(** An item that passes the four checks can be read back by the id the
    insert gave it, with the five values it was created with. *)
Theorem create_item_then_get_item valid fn ip port protocol note hash w t :
  healthy w -> items_at fn w t ->
  valid_ip valid ip = None -> valid_port valid port = None ->
  valid_protocol valid protocol = None -> valid_hash valid hash = None ->
  result ((ItemDatabase.create_item valid fn ip port protocol note hash ;;;
           ItemDatabase.get_item fn (next_id item_id t)) w)
  = Ret (ItemRow [("id", VInt (next_id item_id t)); ("ip", VStr ip);
                  ("port", VInt port); ("protocol", VStr protocol);
                  ("note", VStr note); ("hash", VStr hash)]).
Proof.
  intros Hh (f & Hf & Ht) H1 H2 H3 H4.
  rewrite (bind_run _ _ w true _
             (create_item_run valid fn ip port protocol note hash w f t
                Hh Hf Ht H1 H2 H3 H4)).
  set (w1 := set_cur [] _).
  unfold ItemDatabase.get_item.
  rewrite (bind_run _ _ w1 true _
             (execute_select_ok fn items _ true w1 _ _ Hh
                (lookup_insert_eq _ _ _) eq_refl)).
  rewrite (filter_new_id item_id
             (fun i => {| item_id := i; item_ip := ip; item_port := port;
                          item_protocol := protocol; item_note := note;
                          item_hash := hash |}) t eq_refl).
  reflexivity.
Qed.

Lemma create_item_then_get_item_witness :
  let fn := "data/p.sqlite" in
  result ((ItemDatabase.create_item port_range_only fn
             "10.0.0.9" 22 "tcp" "ssh" "d4" ;;;
           ItemDatabase.get_item fn 4) three_items)
  = Ret (ItemRow [("id", VInt 4); ("ip", VStr "10.0.0.9"); ("port", VInt 22);
                  ("protocol", VStr "tcp"); ("note", VStr "ssh");
                  ("hash", VStr "d4")]).
Proof.
  apply (create_item_then_get_item port_range_only "data/p.sqlite"
           "10.0.0.9" 22 "tcp" "ssh" "d4" three_items
           {| rows := [ {| item_id := 1; item_ip := "10.0.0.1"; item_port := 80;
                           item_protocol := "tcp"; item_note := "http";
                           item_hash := "a1" |};
                        {| item_id := 2; item_ip := "10.0.0.1"; item_port := 53;
                           item_protocol := "udp"; item_note := "dns";
                           item_hash := "b2" |};
                        {| item_id := 3; item_ip := "10.0.0.2"; item_port := 0;
                           item_protocol := "tcp"; item_note := "";
                           item_hash := "c3" |} ];
              last_rowid := 3 |}).
  - reflexivity.
  - eexists. split; vm_compute; reflexivity.
  - reflexivity.
  - reflexivity.
  - reflexivity.
  - reflexivity.
Defined.

(** [get_item] answers an id within the 64-bit range that no item has with
    [None], not with the empty dict it returns when the statement fails. *)
Theorem get_item_unknown_id_returns_None fn i w t :
  healthy w -> items_at fn w t -> int64 i ->
  (forall r, In r (rows t) -> item_id r <> i) ->
  result (ItemDatabase.get_item fn i w) = Ret ItemNone.
Proof.
  intros Hh (f & Hf & Ht) _ Hno. unfold ItemDatabase.get_item.
  rewrite (bind_run _ _ w true _
             (execute_select_ok fn items _ true w f t Hh Hf Ht)).
  rewrite filter_none; [reflexivity|].
  intros r Hr. apply Z.eqb_neq. auto.
Qed.

Lemma get_item_unknown_id_returns_None_witness :
  result (ItemDatabase.get_item "data/p.sqlite" 9 three_items) = Ret ItemNone.
Proof.
  apply (get_item_unknown_id_returns_None "data/p.sqlite" 9 three_items
           {| rows := [ {| item_id := 1; item_ip := "10.0.0.1"; item_port := 80;
                           item_protocol := "tcp"; item_note := "http";
                           item_hash := "a1" |};
                        {| item_id := 2; item_ip := "10.0.0.1"; item_port := 53;
                           item_protocol := "udp"; item_note := "dns";
                           item_hash := "b2" |};
                        {| item_id := 3; item_ip := "10.0.0.2"; item_port := 0;
                           item_protocol := "tcp"; item_note := "";
                           item_hash := "c3" |} ];
              last_rowid := 3 |}).
  - reflexivity.
  - eexists. split; vm_compute; reflexivity.
  - unfold int64. lia.
  - intros r [<-|[<-|[<-|[]]]]; discriminate.
Defined.

(** Creating an item adds its address at the end of the addresses listed
    for its hash and leaves the addresses of the earlier items with that hash
    in place: the same address is listed once per item. *)
Theorem create_item_then_get_items_by_hash valid fn ip port protocol note hash w t :
  healthy w -> items_at fn w t ->
  valid_ip valid ip = None -> valid_port valid port = None ->
  valid_protocol valid protocol = None -> valid_hash valid hash = None ->
  result ((ItemDatabase.create_item valid fn ip port protocol note hash ;;;
           ItemDatabase.get_items_by_hash fn hash) w)
  = Ret (map (fun i => VStr (item_ip i))
           (List.filter (fun i => String.eqb (item_hash i) hash) (rows t))
         ++ [VStr ip])%list.
Proof.
  intros Hh (f & Hf & Ht) H1 H2 H3 H4.
  rewrite (bind_run _ _ w true _
             (create_item_run valid fn ip port protocol note hash w f t
                Hh Hf Ht H1 H2 H3 H4)).
  set (w1 := set_cur [] _).
  unfold ItemDatabase.get_items_by_hash.
  rewrite (select_column_run fn items
             (List.filter (fun i => String.eqb (item_hash i) hash))
             "ip" (fun i => VStr (item_ip i)) true w1 _ _ Hh
             (lookup_insert_eq _ _ _) eq_refl).
  cbn [rows insert_row result fst].
  rewrite List.filter_app, map_app. simpl.
  rewrite String.eqb_refl. reflexivity.
Qed.

Lemma create_item_then_get_items_by_hash_witness :
  let fn := "data/p.sqlite" in
  result ((ItemDatabase.create_item port_range_only fn
             "10.0.0.9" 8080 "tcp" "http" "a1" ;;;
           ItemDatabase.get_items_by_hash fn "a1") three_items)
  = Ret [VStr "10.0.0.1"; VStr "10.0.0.9"].
Proof.
  apply (create_item_then_get_items_by_hash port_range_only "data/p.sqlite"
           "10.0.0.9" 8080 "tcp" "http" "a1" three_items
           {| rows := [ {| item_id := 1; item_ip := "10.0.0.1"; item_port := 80;
                           item_protocol := "tcp"; item_note := "http";
                           item_hash := "a1" |};
                        {| item_id := 2; item_ip := "10.0.0.1"; item_port := 53;
                           item_protocol := "udp"; item_note := "dns";
                           item_hash := "b2" |};
                        {| item_id := 3; item_ip := "10.0.0.2"; item_port := 0;
                           item_protocol := "tcp"; item_note := "";
                           item_hash := "c3" |} ];
              last_rowid := 3 |}).
  - reflexivity.
  - eexists. split; vm_compute; reflexivity.
  - reflexivity.
  - reflexivity.
  - reflexivity.
  - reflexivity.
Defined.

(** ** Project dataset, continued *)

Lemma get_host_note_run fn ip w t h rest :
  healthy w -> hosts_at fn w t ->
  List.filter (fun h => String.eqb (host_ip h) ip) (rows t) = h :: rest ->
  HostDatabase.get_host_note fn ip w
  = (Ret (of_option (host_note h)),
     set_cur (map (fun h => [("note", of_option (host_note h))]) rest) w).
Proof.
  intros Hh (f & Hf & Ht) Hsel. unfold HostDatabase.get_host_note.
  rewrite (bind_run _ _ w true _
             (execute_select_ok fn hosts _ true w f t Hh Hf Ht)).
  rewrite Hsel. unfold bind, Database.fetchone, Database.getitem. simpl.
  destruct w; reflexivity.
Qed.

(** For an address with a hosts row, [get_host_details] returns the note of
    the first such row and, in row order, every item of that address with
    all its columns. *)
Theorem get_host_details_merges_note_and_items fn ip w th ti h rest :
  healthy w -> hosts_at fn w th -> items_at fn w ti ->
  List.filter (fun h => String.eqb (host_ip h) ip) (rows th) = h :: rest ->
  result (ScanDatabase.get_host_details fn ip w)
  = Ret {| d_note := of_option (host_note h);
           d_items := map item_row
                        (List.filter (fun i => String.eqb (item_ip i) ip)
                           (rows ti)) |}.
Proof.
  intros Hh Hth (f & Hf & Hti) Hsel. unfold ScanDatabase.get_host_details.
  rewrite (bind_run _ _ w _ _ (get_host_note_run fn ip w th h rest Hh Hth Hsel)).
  set (w1 := set_cur _ w).
  unfold ItemDatabase.get_items_by_ip.
  rewrite (bind_run _ _ w1 _ _
             (select_fetchall_run fn items _ true w1 f ti Hh Hf Hti)).
  reflexivity.
Qed.

Lemma get_host_details_merges_note_and_items_witness :
  result (ScanDatabase.get_host_details "data/p.sqlite" "10.0.0.1" host_with_items)
  = Ret {| d_note := VStr "dc";
           d_items :=
             [ [("id", VInt 1); ("ip", VStr "10.0.0.1"); ("port", VInt 80);
                ("protocol", VStr "tcp"); ("note", VStr "http"); ("hash", VStr "a1")];
               [("id", VInt 3); ("ip", VStr "10.0.0.1"); ("port", VInt 53);
                ("protocol", VStr "udp"); ("note", VStr "dns"); ("hash", VStr "c3")] ] |}.
Proof.
  apply (get_host_details_merges_note_and_items "data/p.sqlite" "10.0.0.1"
           host_with_items
           {| rows := [ {| host_id := 1; host_ip := "10.0.0.1";
                           host_note := Some "dc" |} ];
              last_rowid := 1 |}
           {| rows := [ {| item_id := 1; item_ip := "10.0.0.1"; item_port := 80;
                           item_protocol := "tcp"; item_note := "http";
                           item_hash := "a1" |};
                        {| item_id := 2; item_ip := "10.0.0.7"; item_port := 22;
                           item_protocol := "tcp"; item_note := "ssh";
                           item_hash := "b2" |};
                        {| item_id := 3; item_ip := "10.0.0.1"; item_port := 53;
                           item_protocol := "udp"; item_note := "dns";
                           item_hash := "c3" |} ];
              last_rowid := 3 |}
           {| host_id := 1; host_ip := "10.0.0.1"; host_note := Some "dc" |} []).
  - reflexivity.
  - eexists. split; vm_compute; reflexivity.
  - eexists. split; vm_compute; reflexivity.
  - reflexivity.
Defined.

(** For an address without a hosts row, [get_host_details] raises
    [TypeError] while it reads the note, also when the items table has
    items of that address: they are never returned. *)
Theorem get_host_details_raises_without_host_row fn ip w th :
  healthy w -> hosts_at fn w th ->
  (forall h, In h (rows th) -> host_ip h <> ip) ->
  result (ScanDatabase.get_host_details fn ip w) = Raise TypeError.
Proof.
  intros Hh (f & Hf & Hth) Hno.
  unfold ScanDatabase.get_host_details, HostDatabase.get_host_note.
  unfold bind at 1. unfold bind at 1.
  rewrite (execute_select_ok fn hosts _ true w f th Hh Hf Hth).
  rewrite filter_none; [reflexivity|].
  intros h Hin. apply String.eqb_neq. auto.
Qed.

Lemma get_host_details_raises_without_host_row_witness :
  result (ScanDatabase.get_host_details "data/p.sqlite" "10.0.0.7" host_with_items)
  = Raise TypeError.
Proof.
  apply (get_host_details_raises_without_host_row "data/p.sqlite" "10.0.0.7"
           host_with_items
           {| rows := [ {| host_id := 1; host_ip := "10.0.0.1";
                           host_note := Some "dc" |} ];
              last_rowid := 1 |}).
  - reflexivity.
  - eexists. split; vm_compute; reflexivity.
  - intros h [<-|[]]. discriminate.
Defined.

(** ** Attack store, continued *)

Lemma create_attack_run fn name description its w f t :
  healthy w -> files w !! fn = Some f -> attacks f = Some t ->
  AttackDatabase.create_attack fn name description its w
  = (Ret true,
     set_cur []
       (set_files
          (<[fn := set_attacks
                     (insert_row attack_id
                        (fun i => {| attack_id := i; attack_name := name;
                                     attack_description := description;
                                     attack_items := String.concat "," its;
                                     attack_note := "" |}) t) f]> (files w)) w)).
Proof.
  intros Hh Hf Ht.
  apply (execute_modify_ok fn attacks set_attacks _ true w f t Hh Hf Ht).
Qed.

(** A name that no attack carries is answered with [None]; once an attack
    is created under it, [get_attack_by_name] returns the id the insert gave
    it and its empty note. *)
Theorem create_attack_then_get_attack_by_name fn name description its w t :
  healthy w -> attacks_at fn w t ->
  (forall a, In a (rows t) -> attack_name a <> name) ->
  result (AttackDatabase.get_attack_by_name fn name w) = Ret None
  /\ result ((AttackDatabase.create_attack fn name description its ;;;
              AttackDatabase.get_attack_by_name fn name) w)
     = Ret (Some [("id", VInt (next_id attack_id t)); ("note", VStr "")]).
Proof.
  intros Hh (f & Hf & Ht) Hno.
  assert (Hold : List.filter (fun a => String.eqb (attack_name a) name) (rows t) = []).
  { apply filter_none. intros a Ha. apply String.eqb_neq. auto. }
  split.
  - unfold AttackDatabase.get_attack_by_name.
    rewrite (bind_run _ _ w true _
               (execute_select_ok fn attacks _ false w f t Hh Hf Ht)).
    rewrite Hold. reflexivity.
  - rewrite (bind_run _ _ w true _
               (create_attack_run fn name description its w f t Hh Hf Ht)).
    set (w1 := set_cur [] _).
    unfold AttackDatabase.get_attack_by_name.
    rewrite (bind_run _ _ w1 true _
               (execute_select_ok fn attacks _ false w1 _ _ Hh
                  (lookup_insert_eq _ _ _) eq_refl)).
    cbn [rows insert_row]. rewrite List.filter_app, Hold. simpl.
    rewrite String.eqb_refl. reflexivity.
Qed.

Lemma create_attack_then_get_attack_by_name_witness :
  let fn := "data/p.sqlite" in
  result (AttackDatabase.get_attack_by_name fn "smb" (one_file fn new_store))
  = Ret None
  /\ result ((AttackDatabase.create_attack fn "smb" "SMB signing" ["10.0.0.1"] ;;;
              AttackDatabase.get_attack_by_name fn "smb") (one_file fn new_store))
     = Ret (Some [("id", VInt 1); ("note", VStr "")]).
Proof.
  apply (create_attack_then_get_attack_by_name "data/p.sqlite" "smb"
           "SMB signing" ["10.0.0.1"] (one_file "data/p.sqlite" new_store)
           empty_table).
  - reflexivity.
  - exists new_store. split; reflexivity.
  - intros a [].
Defined.

Lemma filter_map_key {R} (key : R -> Z) (g : R -> R) (k : Z) (l : list R) :
  (forall r, key (g r) = key r) ->
  List.filter (fun r => Z.eqb (key r) k) (map g l)
  = map g (List.filter (fun r => Z.eqb (key r) k) l).
Proof.
  intros Hg. induction l as [|x l IH]; simpl; [reflexivity|].
  rewrite Hg. destruct (Z.eqb (key x) k); simpl; rewrite IH; reflexivity.
Qed.

(** The note and the items of an attack are updated independently: after
    [update_attack_note] and then [update_attack_hosts] on the id of an
    attack, [get_attack] shows the new note and the new items, with the
    name and the description it had. *)
Theorem update_attack_note_and_hosts_compose fn aid note its w t a rest :
  healthy w -> attacks_at fn w t ->
  List.filter (fun a => Z.eqb (attack_id a) aid) (rows t) = a :: rest ->
  result ((AttackDatabase.update_attack_note fn aid note ;;;
           AttackDatabase.update_attack_hosts fn aid its ;;;
           AttackDatabase.get_attack fn aid) w)
  = Ret (Some [("id", VInt aid); ("name", VStr (attack_name a));
               ("description", VStr (attack_description a));
               ("items", VStr (String.concat "," its));
               ("note", VStr note)]).
Proof.
  intros Hh (f & Hf & Ht) Hsel.
  assert (Hid : attack_id a = aid).
  { assert (Hin : In a (List.filter (fun a => Z.eqb (attack_id a) aid) (rows t)))
      by (rewrite Hsel; left; reflexivity).
    apply filter_In in Hin as [_ Hin]. apply Z.eqb_eq, Hin. }
  unfold AttackDatabase.update_attack_note.
  rewrite (bind_run _ _ w true _
             (execute_modify_ok fn attacks set_attacks _ true w f t Hh Hf Ht)).
  set (w1 := set_cur [] _).
  unfold AttackDatabase.update_attack_hosts.
  rewrite (bind_run _ _ w1 true _
             (execute_modify_ok fn attacks set_attacks _ true w1 _ _ Hh
                (lookup_insert_eq _ _ _) eq_refl)).
  set (w2 := set_cur [] _).
  unfold AttackDatabase.get_attack.
  rewrite (bind_run _ _ w2 true _
             (execute_select_ok fn attacks _ false w2 _ _ Hh
                (lookup_insert_eq _ _ _) eq_refl)).
  cbn [rows update_rows].
  rewrite !filter_map_key by (intros r; destruct (Z.eqb (attack_id r) aid); reflexivity).
  rewrite Hsel. cbn [map]. rewrite Hid, Z.eqb_refl. cbn [attack_id].
  rewrite Z.eqb_refl. reflexivity.
Qed.

Lemma update_attack_note_and_hosts_compose_witness :
  let fn := "data/p.sqlite" in
  let w := final (AttackDatabase.create_attack fn "smb" "SMB signing"
                    ["10.0.0.1"; "10.0.0.2"] (one_file fn new_store)) in
  result ((AttackDatabase.update_attack_note fn 1 "checked" ;;;
           AttackDatabase.update_attack_hosts fn 1 ["10.0.0.3"] ;;;
           AttackDatabase.get_attack fn 1) w)
  = Ret (Some [("id", VInt 1); ("name", VStr "smb");
               ("description", VStr "SMB signing");
               ("items", VStr "10.0.0.3"); ("note", VStr "checked")]).
Proof.
  intros fn w.
  apply (update_attack_note_and_hosts_compose fn 1 "checked" ["10.0.0.3"] w
           {| rows := [ {| attack_id := 1; attack_name := "smb";
                           attack_description := "SMB signing";
                           attack_items := "10.0.0.1,10.0.0.2";
                           attack_note := "" |} ];
              last_rowid := 1 |}
           {| attack_id := 1; attack_name := "smb";
              attack_description := "SMB signing";
              attack_items := "10.0.0.1,10.0.0.2"; attack_note := "" |} []).
  - reflexivity.
  - eexists. split; vm_compute; reflexivity.
  - reflexivity.
Defined.

Lemma get_attack_notes_run fn w f t :
  healthy w -> files w !! fn = Some f -> attacks f = Some t ->
  result (AttackDatabase.get_attack_notes fn w)
  = Ret (map (fun a => (VStr (attack_name a), VStr (attack_note a))) (rows t)).
Proof.
  intros Hh Hf Ht. unfold AttackDatabase.get_attack_notes.
  rewrite (bind_run _ _ w true _
             (execute_select_ok fn attacks _ false w f t Hh Hf Ht)).
  rewrite (bind_run _ _ _ (map (fun a => [("name", VStr (attack_name a));
                                          ("note", VStr (attack_note a))]) (rows t))
             (set_cur [] w))
    by (unfold Database.fetchall; destruct w; reflexivity).
  rewrite (mapM_ret _ (fun r : Row => match r with
                                      | [(_, x); (_, y)] => (x, y)
                                      | _ => (VNone, VNone)
                                      end)).
  - unfold result. cbn [fst]. rewrite map_map. reflexivity.
  - intros x w0 (a & <- & _)%in_map_iff. reflexivity.
Qed.

(** A new attack enters the list of attack notes at the end, under its
    name and with the empty note; the notes listed before stay as they
    were. *)
Theorem create_attack_then_get_attack_notes fn name description its w t :
  healthy w -> attacks_at fn w t ->
  result ((AttackDatabase.create_attack fn name description its ;;;
           AttackDatabase.get_attack_notes fn) w)
  = Ret (map (fun a => (VStr (attack_name a), VStr (attack_note a))) (rows t)
         ++ [(VStr name, VStr "")])%list.
Proof.
  intros Hh (f & Hf & Ht).
  rewrite (bind_run _ _ w true _
             (create_attack_run fn name description its w f t Hh Hf Ht)).
  set (w1 := set_cur [] _).
  pose proof (get_attack_notes_run fn w1 _ _ Hh (lookup_insert_eq _ _ _) eq_refl) as H.
  cbn [rows insert_row] in H. rewrite map_app in H. exact H.
Qed.

Lemma create_attack_then_get_attack_notes_witness :
  let fn := "data/p.sqlite" in
  let w := final ((AttackDatabase.create_attack fn "smb" "SMB signing" ["10.0.0.1"] ;;;
                   AttackDatabase.update_attack_note fn 1 "checked")
                    (one_file fn new_store)) in
  result ((AttackDatabase.create_attack fn "ftp" "Anonymous FTP" ["10.0.0.2"] ;;;
           AttackDatabase.get_attack_notes fn) w)
  = Ret [(VStr "smb", VStr "checked"); (VStr "ftp", VStr "")].
Proof.
  intros fn w.
  apply (create_attack_then_get_attack_notes fn "ftp" "Anonymous FTP"
           ["10.0.0.2"] w
           {| rows := [ {| attack_id := 1; attack_name := "smb";
                           attack_description := "SMB signing";
                           attack_items := "10.0.0.1";
                           attack_note := "checked" |} ];
              last_rowid := 1 |}).
  - reflexivity.
  - eexists. split; vm_compute; reflexivity.
Defined.

(** ** Opening a dataset *)

Lemma execute_sql_fault fn s c w fl :
  faults w = true :: fl ->
  Database.execute_sql fn s c w = (Ret false, set_faults fl w).
Proof. intros H. unfold Database.execute_sql. rewrite H. reflexivity. Qed.

Lemma execute_sql_ok_after fn s c w fl f rs f' :
  faults w = false :: fl -> files w !! fn = Some f -> s f = Some (rs, f') ->
  Database.execute_sql fn s c w
  = (Ret true, set_cur rs (set_files (<[fn := f']> (files w)) (set_faults fl w))).
Proof.
  intros H Hf Hs. unfold Database.execute_sql. rewrite H, Hf, Hs. reflexivity.
Qed.

Lemma execute_select_ok_after {R} fn (tbl : sqlite_file -> option (table R)) q c
    w fl f t :
  faults w = false :: fl -> files w !! fn = Some f -> tbl f = Some t ->
  Database.execute_sql fn (select tbl q) c w
  = (Ret true, set_cur (q (rows t)) (set_faults fl w)).
Proof.
  intros H Hf Ht.
  rewrite (execute_sql_ok_after fn _ c w fl f (q (rows t)) f H Hf).
  - rewrite (insert_id _ _ _ Hf). destruct w; reflexivity.
  - unfold select. rewrite Ht. reflexivity.
Qed.

(** One store constructor: connect, then CREATE TABLE IF NOT EXISTS. *)
Lemma open_store_inv {R} fn (tbl : sqlite_file -> option (table R)) set msg w w' :
  (Database.init fn ;;;
   res <- Database.execute_sql fn (create_table tbl set) true ;;
   if res then ret tt else raise (DatabaseException msg)) w = (Ret tt, w') ->
  files w' = <[fn := ensure tbl set (file_at fn w)]> (files w)
  /\ errlog w' = errlog w /\ faults w' = tl (tl (faults w)).
Proof.
  unfold bind, Database.init, Database.execute_sql, file_at, ensure, create_table.
  destruct (faults w) as [|[] fl]; try discriminate;
    (destruct (files w !! fn) as [f|] eqn:Hf;
     cbn [files set_files set_faults faults tl];
     rewrite ?lookup_insert_eq, ?Hf);
    try (destruct fl as [|[] fl]; try discriminate);
    (destruct (tbl _); intros [= <-];
     cbn [files set_files set_cur set_faults errlog faults tl];
     rewrite ?insert_insert_eq; auto).
Qed.


Lemma file_at_insert fn f w fs :
  files w = <[fn := f]> fs -> file_at fn w = f.
Proof. intros H. unfold file_at. rewrite H, lookup_insert_eq. reflexivity. Qed.

(** A successful [ScanDatabase(filename)] leaves at [filename] the file that
    was there, or an empty database, with the missing ones of its four tables
    created empty; it touches no other file and logs nothing. *)
Lemma ScanDatabase_init_inv fn w w' :
  ScanDatabase.init fn w = (Ret tt, w') ->
  files w' = <[fn := opened (file_at fn w)]> (files w)
  /\ errlog w' = errlog w
  /\ faults w' = Nat.iter 8 (@tl bool) (faults w).
Proof.
  unfold ScanDatabase.init.
  unfold ItemDatabase.init, AttackDatabase.init, HostDatabase.init,
    ImportDatabase.init.
  intros H.
  unfold bind at 1 in H.
  destruct ((Database.init fn ;;;
             ires <- Database.execute_sql fn (create_table items set_items) true ;;
             (if ires then ret tt
              else raise (DatabaseException "Could not create items table."))) w)
    as [[[]|e] w1] eqn:E1; [|discriminate].
  apply open_store_inv in E1 as (F1 & L1 & Q1).
  unfold bind at 1 in H.
  destruct ((Database.init fn ;;;
             ares <- Database.execute_sql fn (create_table attacks set_attacks) true ;;
             (if ares then ret tt
              else raise (DatabaseException "Could not create attack table."))) w1)
    as [[[]|e] w2] eqn:E2; [|discriminate].
  apply open_store_inv in E2 as (F2 & L2 & Q2).
  unfold bind at 1 in H.
  destruct ((Database.init fn ;;;
             hres <- Database.execute_sql fn (create_table hosts set_hosts) true ;;
             (if hres then ret tt
              else raise (DatabaseException "Could not create hosts table."))) w2)
    as [[[]|e] w3] eqn:E3; [|discriminate].
  apply open_store_inv in E3 as (F3 & L3 & Q3).
  apply open_store_inv in H as (F4 & L4 & Q4).
  rewrite (file_at_insert _ _ _ _ F1) in F2. rewrite F1, insert_insert_eq in F2.
  rewrite (file_at_insert _ _ _ _ F2) in F3. rewrite F2, insert_insert_eq in F3.
  rewrite (file_at_insert _ _ _ _ F3) in F4. rewrite F3, insert_insert_eq in F4.
  split; [exact F4|]. split; [congruence|].
  cbn [Nat.iter nat_rect]. congruence.
Qed.

Lemma bind_inv {A B} (m : M A) (k : A -> M B) w o w' :
  bind m k w = (o, w') ->
  (exists a w1, m w = (Ret a, w1) /\ k a w1 = (o, w'))
  \/ (exists e, m w = (Raise e, w') /\ o = Raise e).
Proof.
  unfold bind. destruct (m w) as [[a|e] w1]; intros H.
  - left. eauto.
  - right. injection H as <- <-. eauto.
Qed.


Lemma open_store_healthy {R} fn (tbl : sqlite_file -> option (table R)) set msg w :
  healthy w ->
  exists w',
    (Database.init fn ;;;
     res <- Database.execute_sql fn (create_table tbl set) true ;;
     if res then ret tt else raise (DatabaseException msg)) w = (Ret tt, w')
    /\ healthy w'.
Proof.
  intros Hh. unfold healthy in Hh.
  unfold bind, Database.init, Database.execute_sql, create_table.
  rewrite Hh. cbn [tl].
  destruct (files w !! fn) as [f|] eqn:Hf;
    cbn [files set_files set_faults faults tl];
    rewrite ?lookup_insert_eq, ?Hf;
    (destruct (tbl _); simpl; eexists; split; try reflexivity;
     unfold healthy; reflexivity).
Qed.

Lemma ScanDatabase_init_healthy fn w :
  healthy w ->
  exists w',
    ScanDatabase.init fn w = (Ret tt, w') /\ healthy w'
    /\ files w' = <[fn := opened (file_at fn w)]> (files w)
    /\ errlog w' = errlog w.
Proof.
  intros Hh.
  assert (exists w', ScanDatabase.init fn w = (Ret tt, w') /\ healthy w')
    as (w' & Hrun & Hh').
  { unfold ScanDatabase.init.
    unfold ItemDatabase.init, AttackDatabase.init, HostDatabase.init,
      ImportDatabase.init.
    destruct (open_store_healthy fn items set_items
                "Could not create items table." w Hh) as (w1 & E1 & H1).
    rewrite (bind_run _ _ w tt w1 E1).
    destruct (open_store_healthy fn attacks set_attacks
                "Could not create attack table." w1 H1) as (w2 & E2 & H2).
    rewrite (bind_run _ _ w1 tt w2 E2).
    destruct (open_store_healthy fn hosts set_hosts
                "Could not create hosts table." w2 H2) as (w3 & E3 & H3).
    rewrite (bind_run _ _ w2 tt w3 E3).
    apply (open_store_healthy fn imports set_imports
             "Could not create imports table." w3 H3). }
  exists w'. split; [exact Hrun|]. split; [exact Hh'|].
  apply ScanDatabase_init_inv in Hrun as (F & L & _). auto.
Qed.

(** Opening a dataset keeps what is in it: with a healthy engine
    [ScanDatabase(filename)] succeeds, every table the file already had keeps
    its rows, the missing ones of the four tables are created empty, and no
    other file changes.  A second opening changes nothing. *)
Theorem ScanDatabase_init_keeps_existing_tables fn w :
  healthy w ->
  let w' := final (ScanDatabase.init fn w) in
  result (ScanDatabase.init fn w) = Ret tt
  /\ (exists th ti ta tm,
        hosts (file_at fn w') = Some th /\ items (file_at fn w') = Some ti
        /\ attacks (file_at fn w') = Some ta /\ imports (file_at fn w') = Some tm
        /\ (forall t, hosts (file_at fn w) = Some t -> th = t)
        /\ (forall t, items (file_at fn w) = Some t -> ti = t)
        /\ (forall t, attacks (file_at fn w) = Some t -> ta = t)
        /\ (forall t, imports (file_at fn w) = Some t -> tm = t)
        /\ (hosts (file_at fn w) = None -> th = empty_table)
        /\ (items (file_at fn w) = None -> ti = empty_table)
        /\ (attacks (file_at fn w) = None -> ta = empty_table)
        /\ (imports (file_at fn w) = None -> tm = empty_table))
  /\ projects (file_at fn w') = projects (file_at fn w)
  /\ (forall p, p <> fn -> files w' !! p = files w !! p)
  /\ files (final (ScanDatabase.init fn w')) = files w'.
Proof.
  intros Hh w'.
  destruct (ScanDatabase_init_healthy fn w Hh) as (w1 & Hrun & Hh1 & F & L).
  subst w'. rewrite Hrun. cbn [result final fst snd].
  destruct (ScanDatabase_init_healthy fn w1 Hh1) as (w2 & Hrun2 & _ & F2 & _).
  rewrite Hrun2. cbn [result final fst snd].
  rewrite (file_at_insert _ _ _ _ F) in *.
  split; [reflexivity|].
  assert (Hshape :
            forall f, exists th ti ta tm,
              opened f = {| hosts := Some th; items := Some ti;
                            attacks := Some ta; imports := Some tm;
                            projects := projects f |}
              /\ (forall t, hosts f = Some t -> th = t)
              /\ (forall t, items f = Some t -> ti = t)
              /\ (forall t, attacks f = Some t -> ta = t)
              /\ (forall t, imports f = Some t -> tm = t)
              /\ (hosts f = None -> th = empty_table)
              /\ (items f = None -> ti = empty_table)
              /\ (attacks f = None -> ta = empty_table)
              /\ (imports f = None -> tm = empty_table)).
  { intros [[th|] [ti|] [ta|] [tm|] pr]; cbv [opened ensure];
      simpl; do 4 eexists; (split; [reflexivity|]);
      repeat split; intros; simpl in *; congruence. }
  destruct (Hshape (file_at fn w)) as (th & ti & ta & tm & E & Hs).
  split; [|split; [|split]].
  - exists th, ti, ta, tm. rewrite E. simpl. tauto.
  - rewrite E. reflexivity.
  - intros p Hp. rewrite F. apply lookup_insert_ne. congruence.
  - rewrite F2, F, insert_insert_eq. f_equal.
    rewrite E. reflexivity.
Qed.

Lemma ScanDatabase_init_keeps_existing_tables_witness :
  let fn := "data/p.sqlite" in
  let w' := final (ScanDatabase.init fn host_with_items) in
  result (ScanDatabase.init fn host_with_items) = Ret tt
  /\ files w' = files host_with_items
  /\ files (final (ScanDatabase.init "data/q.sqlite" host_with_items))
     !! "data/q.sqlite" = Some new_store.
Proof.
  intros fn w'.
  destruct (ScanDatabase_init_keeps_existing_tables fn host_with_items eq_refl)
    as (Hres & _).
  split; [exact Hres|]. split; vm_compute; reflexivity.
Defined.

(** ** Project registry, continued *)

Lemma registry_inv w t :
  registry w = Some t ->
  exists f, files w !! PRJ_FILE = Some f /\ projects f = Some t.
Proof.
  unfold registry. destruct (files w !! PRJ_FILE) as [f|]; [eauto|discriminate].
Qed.

Lemma append_length (a b : string) :
  String.length (a +:+ b) = (String.length a + String.length b)%nat.
Proof.
  induction a as [|c a IH]; [reflexivity|].
  change (String c a +:+ b) with (String c (a +:+ b)).
  cbn [String.length Nat.add]. rewrite IH. reflexivity.
Qed.

(** No project store is the registry file. *)
Lemma store_path_not_registry r : data_path (token r +:+ ".sqlite") <> PRJ_FILE.
Proof.
  unfold PRJ_FILE, data_path. intros H.
  apply (f_equal String.length) in H.
  rewrite !append_length, token_length in H. simpl in H. lia.
Qed.



(** With an engine that cannot open the store file, [create_project] raises
    and leaves the registry of [one_project] as it is. *)
Example create_project_on_unreachable_store :
  let r := ProjectDatabase.create_project "beta" (set_faults [true] one_project) in
  result r = Raise OperationalError
  /\ registry (final r) = registry one_project.
Proof. vm_compute. split; reflexivity. Qed.

(** A successful [create_project] leaves at the new store path a file with
    the four tables of a dataset: empty tables when nothing was at that path,
    and the tables of the file that was there when the token repeats the
    path of an existing store. *)
Theorem create_project_opens_the_store name w :
  result (ProjectDatabase.create_project name w) = Ret true ->
  let db := data_path (token (rng w) +:+ ".sqlite") in
  files (final (ProjectDatabase.create_project name w)) !! db
  = Some (opened (file_at db w))
  /\ (files w !! db = None ->
      files (final (ProjectDatabase.create_project name w)) !! db
      = Some new_store).
Proof.
  destruct (create_project_run name w) as (r' & ->). cbv zeta.
  set (db := data_path (token (rng w) +:+ ".sqlite")).
  unfold except_DatabaseException.
  destruct ((ScanDatabase.init db ;;; Database.execute_sql PRJ_FILE _ true)
              (set_rng r' w)) as [o w2] eqn:E.
  intros Hres.
  assert (o = Ret true) as ->.
  { destruct o as [b|[]]; simpl in Hres; congruence. }
  cbn [final snd].
  apply bind_inv in E as [([] & w1 & Hinit & Hins) | (e & _ & [=])].
  apply ScanDatabase_init_inv in Hinit as (F & _ & _).
  apply execute_sql_true_inv in Hins as (f & rs & f' & _ & _ & ->).
  cbn [files set_cur set_files set_faults].
  assert (Hdb : files w1 !! db = Some (opened (file_at db w))).
  { rewrite F. apply lookup_insert_eq. }
  rewrite lookup_insert_ne by (intros H; symmetry in H;
                               exact (store_path_not_registry (rng w) H)).
  split; [exact Hdb|].
  intros Hnone. rewrite Hdb. unfold file_at. cbn [files set_rng].
  rewrite Hnone. reflexivity.
Qed.

Lemma create_project_opens_the_store_witness :
  files (final (ProjectDatabase.create_project "alpha" varying_generator))
  !! "data/3a7f00c41b92.sqlite"
  = Some new_store.
Proof.
  assert (H : result (ProjectDatabase.create_project "alpha" varying_generator)
              = Ret true) by (vm_compute; reflexivity).
  destruct (create_project_opens_the_store "alpha" varying_generator H) as [_ Hnew].
  apply Hnew. vm_compute. reflexivity.
Defined.

Lemma create_project_healthy name w t :
  healthy w -> registry w = Some t ->
  exists w',
    ProjectDatabase.create_project name w = (Ret true, w')
    /\ healthy w'
    /\ errlog w' = errlog w
    /\ registry w'
       = Some (insert_row project_id
                 (fun i => {| project_id := i; project_name := name;
                              project_note := None;
                              project_dbfile :=
                                data_path (token (rng w) +:+ ".sqlite") |}) t).
Proof.
  intros Hh Hreg. apply registry_inv in Hreg as (f & Hf & Ht).
  destruct (create_project_run name w) as (r' & ->). cbv zeta.
  set (db := data_path (token (rng w) +:+ ".sqlite")).
  destruct (ScanDatabase_init_healthy db (set_rng r' w) Hh)
    as (w1 & Hinit & Hh1 & F & L).
  assert (Hf1 : files w1 !! PRJ_FILE = Some f).
  { rewrite F, lookup_insert_ne; [exact Hf|].
    apply store_path_not_registry. }
  unfold except_DatabaseException.
  rewrite (bind_run _ _ _ tt w1 Hinit).
  rewrite (execute_modify_ok PRJ_FILE projects set_projects _ true w1 f t Hh1 Hf1 Ht).
  eexists. split; [reflexivity|]. split; [exact Hh1|]. split; [exact L|].
  unfold registry. cbn [files set_cur set_files].
  rewrite lookup_insert_eq. reflexivity.
Qed.

Lemma get_project_run pid w t p rest :
  healthy w -> registry w = Some t ->
  List.filter (fun p => Z.eqb (project_id p) pid) (rows t) = p :: rest ->
  exists c,
    ProjectDatabase.get_project pid w
    = (Ret (PyRow [("name", VStr (project_name p));
                   ("dbfile", VStr (project_dbfile p));
                   ("note", of_option (project_note p))]),
       set_cur c w).
Proof.
  intros Hh Hreg Hsel. apply registry_inv in Hreg as (f & Hf & Ht).
  unfold ProjectDatabase.get_project.
  rewrite (bind_run _ _ w true _
             (execute_select_ok PRJ_FILE projects _ true w f t Hh Hf Ht)).
  rewrite Hsel. unfold bind, Database.fetchone. simpl.
  eexists. destruct w; reflexivity.
Qed.

(** A project that was just created can be looked up by the id the insert
    gave it: [get_project] returns its name, its store path and no note. *)
Theorem create_project_then_get_project name w t :
  healthy w -> registry w = Some t ->
  result ((ProjectDatabase.create_project name ;;;
           ProjectDatabase.get_project (next_id project_id t)) w)
  = Ret (PyRow [("name", VStr name);
                ("dbfile", VStr (data_path (token (rng w) +:+ ".sqlite")));
                ("note", VNone)]).
Proof.
  intros Hh Hreg.
  destruct (create_project_healthy name w t Hh Hreg) as (w1 & Hrun & Hh1 & _ & Hreg1).
  rewrite (bind_run _ _ w true w1 Hrun).
  set (mk := fun i => {| project_id := i; project_name := name;
                         project_note := None;
                         project_dbfile := data_path (token (rng w) +:+ ".sqlite") |}).
  destruct (get_project_run (next_id project_id t) w1 _ (mk (next_id project_id t)) []
              Hh1 Hreg1 (filter_new_id project_id mk t eq_refl)) as (c & ->).
  reflexivity.
Qed.

Lemma create_project_then_get_project_witness :
  result ((ProjectDatabase.create_project "beta" ;;;
           ProjectDatabase.get_project 2) one_project)
  = Ret (PyRow [("name", VStr "beta");
                ("dbfile", VStr "data/000000000000.sqlite");
                ("note", VNone)]).
Proof.
  apply (create_project_then_get_project "beta" one_project
           {| rows := [ {| project_id := 1; project_name := "acme";
                           project_note := None;
                           project_dbfile := "data/000000000000.sqlite" |} ];
              last_rowid := 1 |}).
  - reflexivity.
  - vm_compute. reflexivity.
Defined.

(** After [update_project_note] on the id of a project, [get_project]
    returns the new note with the name and the store path the project
    had. *)
Theorem update_project_note_then_get_project pid note w t p rest :
  healthy w -> registry w = Some t ->
  List.filter (fun p => Z.eqb (project_id p) pid) (rows t) = p :: rest ->
  result ((ProjectDatabase.update_project_note pid note ;;;
           ProjectDatabase.get_project pid) w)
  = Ret (PyRow [("name", VStr (project_name p));
                ("dbfile", VStr (project_dbfile p));
                ("note", VStr note)]).
Proof.
  intros Hh Hreg Hsel.
  assert (Hid : project_id p = pid).
  { assert (Hin : In p (List.filter (fun p => Z.eqb (project_id p) pid) (rows t)))
      by (rewrite Hsel; left; reflexivity).
    apply filter_In in Hin as [_ Hin]. apply Z.eqb_eq, Hin. }
  pose proof Hreg as Hreg0.
  apply registry_inv in Hreg as (f & Hf & Ht).
  unfold ProjectDatabase.update_project_note.
  rewrite (bind_run _ _ w true _
             (execute_modify_ok PRJ_FILE projects set_projects _ true w f t Hh Hf Ht)).
  set (w1 := set_cur [] _).
  set (g := fun p0 => if Z.eqb (project_id p0) pid
                      then {| project_id := project_id p0;
                              project_name := project_name p0;
                              project_note := Some note;
                              project_dbfile := project_dbfile p0 |}
                      else p0).
  destruct (get_project_run pid w1 (update_rows g t) (g p) (map g rest)) as (c & ->).
  - exact Hh.
  - unfold registry, w1. cbn [files set_cur set_files].
    rewrite lookup_insert_eq. reflexivity.
  - cbn [rows update_rows]. rewrite filter_map_key.
    + rewrite Hsel. reflexivity.
    + intros r. unfold g. destruct (Z.eqb (project_id r) pid); reflexivity.
  - unfold g. rewrite Hid, Z.eqb_refl. reflexivity.
Qed.

Lemma update_project_note_then_get_project_witness :
  result ((ProjectDatabase.update_project_note 1 "internal network" ;;;
           ProjectDatabase.get_project 1) one_project)
  = Ret (PyRow [("name", VStr "acme");
                ("dbfile", VStr "data/000000000000.sqlite");
                ("note", VStr "internal network")]).
Proof.
  apply (update_project_note_then_get_project 1 "internal network" one_project
           {| rows := [ {| project_id := 1; project_name := "acme";
                           project_note := None;
                           project_dbfile := "data/000000000000.sqlite" |} ];
              last_rowid := 1 |}
           {| project_id := 1; project_name := "acme"; project_note := None;
              project_dbfile := "data/000000000000.sqlite" |} []).
  - reflexivity.
  - vm_compute. reflexivity.
  - reflexivity.
Defined.

Lemma filter_deleted {R} (p : R -> bool) (l : list R) :
  List.filter p (List.filter (fun r => negb (p r)) l) = [].
Proof.
  apply filter_none. intros r Hr. apply filter_In in Hr as [_ Hr].
  apply negb_true_iff, Hr.
Qed.

(** What [delete_project] does up to the removal of the file, for a project
    that is in the registry. *)
Lemma delete_project_run pid w f t p rest :
  healthy w -> files w !! PRJ_FILE = Some f -> projects f = Some t ->
  List.filter (fun p => Z.eqb (project_id p) pid) (rows t) = p :: rest ->
  ProjectDatabase.delete_project pid w
  = ProjectDatabase.delete_file (VStr (project_dbfile p))
      (set_cur []
         (set_files
            (<[PRJ_FILE := set_projects
                             (delete_rows (fun p => Z.eqb (project_id p) pid) t) f]>
               (files w)) w)).
Proof.
  intros Hh Hf Ht Hsel. unfold ProjectDatabase.delete_project.
  assert (Hreg : registry w = Some t) by (unfold registry; rewrite Hf; exact Ht).
  destruct (get_project_run pid w t p rest Hh Hreg Hsel) as (c & Hget).
  rewrite (bind_run _ _ w _ _ Hget).
  unfold ProjectDatabase.unpack3. cbn [map snd].
  rewrite (bind_run _ _ _ (VStr (project_name p), VStr (project_dbfile p),
                           of_option (project_note p)) (set_cur c w) eq_refl).
  cbn beta iota.
  rewrite (bind_run _ _ _ tt (set_cur c w) eq_refl).
  rewrite (bind_run _ _ _ true _
             (execute_modify_ok PRJ_FILE projects set_projects _ true
                (set_cur c w) f t Hh Hf Ht)).
  destruct w; reflexivity.
Qed.

(** Deleting a project that is in the registry removes every registry row
    with its id and the file at its store path, logs nothing, keeps every
    other file, and a later [get_project] on the id returns [None]. *)
Theorem delete_project_removes_row_and_store_file pid w t p rest store :
  healthy w -> registry w = Some t ->
  List.filter (fun p => Z.eqb (project_id p) pid) (rows t) = p :: rest ->
  project_dbfile p <> PRJ_FILE ->
  files w !! project_dbfile p = Some store ->
  let w' := final (ProjectDatabase.delete_project pid w) in
  result (ProjectDatabase.delete_project pid w) = Ret tt
  /\ registry w' = Some (delete_rows (fun p => Z.eqb (project_id p) pid) t)
  /\ files w' !! project_dbfile p = None
  /\ (forall q, q <> project_dbfile p -> q <> PRJ_FILE ->
                files w' !! q = files w !! q)
  /\ errlog w' = errlog w
  /\ result (ProjectDatabase.get_project pid w') = Ret PyNone.
Proof.
  intros Hh Hreg Hsel Hne Hstore w'. subst w'.
  apply registry_inv in Hreg as (f & Hf & Ht).
  rewrite (delete_project_run pid w f t p rest Hh Hf Ht Hsel).
  unfold ProjectDatabase.delete_file.
  cbn [files set_cur set_files].
  rewrite lookup_insert_ne by congruence. rewrite Hstore.
  cbn [result final fst snd].
  set (w' := set_files _ _).
  assert (Hreg' : registry w'
                  = Some (delete_rows (fun p => Z.eqb (project_id p) pid) t)).
  { unfold registry, w'. cbn [files set_files].
    rewrite lookup_delete_ne by congruence.
    rewrite lookup_insert_eq. reflexivity. }
  split; [reflexivity|]. split; [exact Hreg'|]. split; [|split; [|split]].
  - unfold w'. cbn [files set_files]. apply lookup_delete_eq.
  - intros q Hq1 Hq2. unfold w'. cbn [files set_files].
    rewrite lookup_delete_ne by congruence.
    apply lookup_insert_ne. congruence.
  - reflexivity.
  - apply registry_inv in Hreg' as (f' & Hf' & Ht').
    unfold ProjectDatabase.get_project.
    rewrite (bind_run _ _ w' true _
               (execute_select_ok PRJ_FILE projects _ true w' f' _ Hh Hf' Ht')).
    cbn [rows delete_rows]. rewrite filter_deleted. reflexivity.
Qed.

Lemma delete_project_removes_row_and_store_file_witness :
  let w' := final (ProjectDatabase.delete_project 1 two_projects) in
  result (ProjectDatabase.delete_project 1 two_projects) = Ret tt
  /\ registry w'
     = Some {| rows := [ {| project_id := 2; project_name := "acme";
                            project_note := None;
                            project_dbfile := "data/d05e8812f6a3.sqlite" |} ];
               last_rowid := 2 |}
  /\ files w' !! "data/3a7f00c41b92.sqlite" = None
  /\ result (ProjectDatabase.get_project 1 w') = Ret PyNone.
Proof.
  intros w'.
  destruct (delete_project_removes_row_and_store_file 1 two_projects
              {| rows := [ {| project_id := 1; project_name := "zeta corp";
                              project_note := None;
                              project_dbfile := "data/3a7f00c41b92.sqlite" |};
                           {| project_id := 2; project_name := "acme";
                              project_note := None;
                              project_dbfile := "data/d05e8812f6a3.sqlite" |} ];
                 last_rowid := 2 |}
              {| project_id := 1; project_name := "zeta corp";
                 project_note := None;
                 project_dbfile := "data/3a7f00c41b92.sqlite" |} [] new_store)
    as (H1 & H2 & H3 & _ & _ & H6).
  - reflexivity.
  - vm_compute. reflexivity.
  - reflexivity.
  - discriminate.
  - vm_compute. reflexivity.
  - repeat split; assumption.
Defined.

(** When the store file of the project is not on disk, [delete_project]
    still removes the registry row and returns normally; the failed removal
    of the file leaves one record in the error log and nothing else. *)
Theorem delete_project_logs_a_missing_store_file pid w t p rest :
  healthy w -> registry w = Some t ->
  List.filter (fun p => Z.eqb (project_id p) pid) (rows t) = p :: rest ->
  project_dbfile p <> PRJ_FILE ->
  files w !! project_dbfile p = None ->
  let w' := final (ProjectDatabase.delete_project pid w) in
  result (ProjectDatabase.delete_project pid w) = Ret tt
  /\ registry w' = Some (delete_rows (fun p => Z.eqb (project_id p) pid) t)
  /\ (forall q, q <> PRJ_FILE -> files w' !! q = files w !! q)
  /\ errlog w'
     = (errlog w
        ++ ["Could not delete file " +:+ project_dbfile p
            +:+ ": [Errno 2] No such file or directory: '"
            +:+ project_dbfile p +:+ "'"])%list.
Proof.
  intros Hh Hreg Hsel Hne Hstore w'. subst w'.
  apply registry_inv in Hreg as (f & Hf & Ht).
  rewrite (delete_project_run pid w f t p rest Hh Hf Ht Hsel).
  unfold ProjectDatabase.delete_file.
  cbn [files set_cur set_files].
  rewrite lookup_insert_ne by congruence. rewrite Hstore.
  unfold log_error. cbn [result final fst snd].
  split; [reflexivity|]. split; [|split].
  - unfold registry. cbn [files add_errlog set_cur set_files].
    rewrite lookup_insert_eq. reflexivity.
  - intros q Hq. cbn [files add_errlog set_cur set_files].
    apply lookup_insert_ne. congruence.
  - reflexivity.
Qed.

Lemma delete_project_logs_a_missing_store_file_witness :
  let w' := final (ProjectDatabase.delete_project 1 store_file_lost) in
  result (ProjectDatabase.delete_project 1 store_file_lost) = Ret tt
  /\ option_map (fun t => map project_id (rows t)) (registry w') = Some [2]
  /\ errlog w'
     = ["Could not delete file data/3a7f00c41b92.sqlite: [Errno 2] No such file or directory: 'data/3a7f00c41b92.sqlite'"].
Proof.
  intros w'.
  destruct (delete_project_logs_a_missing_store_file 1 store_file_lost
              {| rows := [ {| project_id := 1; project_name := "zeta corp";
                              project_note := None;
                              project_dbfile := "data/3a7f00c41b92.sqlite" |};
                           {| project_id := 2; project_name := "acme";
                              project_note := None;
                              project_dbfile := "data/d05e8812f6a3.sqlite" |} ];
                 last_rowid := 2 |}
              {| project_id := 1; project_name := "zeta corp";
                 project_note := None;
                 project_dbfile := "data/3a7f00c41b92.sqlite" |} [])
    as (H1 & H2 & _ & H4).
  - reflexivity.
  - vm_compute. reflexivity.
  - reflexivity.
  - discriminate.
  - vm_compute. reflexivity.
  - split; [exact H1|]. split.
    + fold w' in H2. rewrite H2. reflexivity.
    + exact H4.
Defined.

(** When the lookup succeeds and the DELETE statement fails, the branch
    that should report it calls [self.error], which does not exist:
    [delete_project] raises [AttributeError]; no file is removed, the
    registry keeps its rows and nothing is logged. *)
Theorem delete_project_raises_when_the_delete_fails pid w t p rest fl :
  faults w = false :: true :: fl -> registry w = Some t ->
  List.filter (fun p => Z.eqb (project_id p) pid) (rows t) = p :: rest ->
  let w' := final (ProjectDatabase.delete_project pid w) in
  result (ProjectDatabase.delete_project pid w) = Raise AttributeError
  /\ files w' = files w
  /\ errlog w' = errlog w.
Proof.
  intros Hfl Hreg Hsel w'. subst w'.
  apply registry_inv in Hreg as (f & Hf & Ht).
  assert (Hget : exists c,
             ProjectDatabase.get_project pid w
             = (Ret (PyRow [("name", VStr (project_name p));
                            ("dbfile", VStr (project_dbfile p));
                            ("note", of_option (project_note p))]),
                set_cur c (set_faults (true :: fl) w))).
  { unfold ProjectDatabase.get_project.
    rewrite (bind_run _ _ w true _
               (execute_select_ok_after PRJ_FILE projects _ true w (true :: fl)
                  f t Hfl Hf Ht)).
    rewrite Hsel. unfold bind, Database.fetchone. simpl. eauto. }
  destruct Hget as (c & Hget).
  unfold ProjectDatabase.delete_project.
  rewrite (bind_run _ _ w _ _ Hget).
  unfold ProjectDatabase.unpack3. cbn [map snd].
  rewrite (bind_run _ _ _ (VStr (project_name p), VStr (project_dbfile p),
                           of_option (project_note p)) _ eq_refl).
  cbn beta iota.
  rewrite (bind_run _ _ _ tt _ eq_refl).
  rewrite (bind_run _ _ _ false _
             (execute_sql_fault PRJ_FILE _ true
                (set_cur c (set_faults (true :: fl) w)) fl eq_refl)).
  cbn [result final fst snd raise files errlog set_cur set_files set_faults].
  auto.
Qed.

Lemma delete_project_raises_when_the_delete_fails_witness :
  let w' := final (ProjectDatabase.delete_project 1 second_statement_fails) in
  result (ProjectDatabase.delete_project 1 second_statement_fails)
  = Raise AttributeError
  /\ files w' = files second_statement_fails
  /\ errlog w' = errlog second_statement_fails.
Proof.
  apply (delete_project_raises_when_the_delete_fails 1 second_statement_fails
           {| rows := [ {| project_id := 1; project_name := "zeta corp";
                           project_note := None;
                           project_dbfile := "data/3a7f00c41b92.sqlite" |};
                        {| project_id := 2; project_name := "acme";
                           project_note := None;
                           project_dbfile := "data/d05e8812f6a3.sqlite" |} ];
              last_rowid := 2 |}
           {| project_id := 1; project_name := "zeta corp";
              project_note := None;
              project_dbfile := "data/3a7f00c41b92.sqlite" |} [] []).
  - reflexivity.
  - vm_compute. reflexivity.
  - reflexivity.
Defined.

Lemma table_names_projects f :
  existsb (fun n => match n with
                    | VStr n => String.eqb "projects" n
                    | _ => false
                    end) (map VStr (Database.table_names f))
  = match projects f with Some _ => true | None => false end.
Proof. destruct f as [[?|] [?|] [?|] [?|] [?|]]; reflexivity. Qed.

Lemma get_tables_run fn w f :
  healthy w -> files w !! fn = Some f ->
  Database.get_tables fn w
  = (Ret (map VStr (Database.table_names f)), set_cur [] w).
Proof.
  intros Hh Hf. unfold Database.get_tables.
  rewrite (bind_run _ _ w true
             (set_cur (map (fun n => [("name", VStr n)]) (Database.table_names f)) w)).
  - rewrite (bind_run _ _ _ (map (fun n => [("name", VStr n)]) (Database.table_names f))
               (set_cur [] w))
      by (unfold Database.fetchall; destruct w; reflexivity).
    rewrite (mapM_ret _ (fun r : Row => match r with
                                        | [(_, x)] => x
                                        | _ => VNone
                                        end)).
    + rewrite map_map. reflexivity.
    + intros x w0 (n & <- & _)%in_map_iff. reflexivity.
  - rewrite (execute_sql_ok fn _ true w f _ f Hh Hf eq_refl).
    rewrite (insert_id _ _ _ Hf). destruct w; reflexivity.
Qed.

Lemma ProjectDatabase_init_run w :
  healthy w ->
  exists w',
    ProjectDatabase.init w = (Ret tt, w') /\ healthy w'
    /\ registry w' = Some (match registry w with
                           | Some t => t
                           | None => empty_table
                           end)
    /\ (forall q, q <> PRJ_FILE -> files w' !! q = files w !! q)
    /\ errlog w' = errlog w.
Proof.
  intros Hh. unfold ProjectDatabase.init.
  assert (exists w0 f0,
             Database.init PRJ_FILE w = (Ret tt, w0) /\ healthy w0
             /\ files w0 !! PRJ_FILE = Some f0
             /\ projects f0 = registry w
             /\ (forall q, q <> PRJ_FILE -> files w0 !! q = files w !! q)
             /\ errlog w0 = errlog w)
    as (w0 & f0 & Hinit & Hh0 & Hf0 & Hp0 & Hq0 & Hl0).
  { unfold Database.init, registry.
    rewrite (set_faults_healthy w Hh), Hh.
    destruct (files w !! PRJ_FILE) as [f|] eqn:Hf.
    - exists w, f. auto 10.
    - eexists. exists empty_file. split; [reflexivity|]. split; [exact Hh|].
      cbn [files set_files errlog]. split; [apply lookup_insert_eq|].
      split; [reflexivity|]. split; [|reflexivity].
      intros q Hq. apply lookup_insert_ne. congruence. }
  rewrite (bind_run _ _ w tt w0 Hinit).
  rewrite (bind_run _ _ w0 _ _ (get_tables_run PRJ_FILE w0 f0 Hh0 Hf0)).
  rewrite table_names_projects, Hp0.
  destruct (registry w) as [t|] eqn:Hreg.
  - eexists. split; [reflexivity|]. split; [exact Hh0|].
    split; [|split; [exact Hq0|exact Hl0]].
    unfold registry. cbn [files set_cur]. rewrite Hf0. exact Hp0.
  - unfold ProjectDatabase.initialize_project_database.
    rewrite (bind_run _ _ (set_cur [] w0) true
               (set_cur [] (set_files
                              (<[PRJ_FILE := set_projects empty_table f0]>
                                 (files (set_cur [] w0))) (set_cur [] w0)))).
    + eexists. split; [reflexivity|]. split; [exact Hh0|].
      split; [|split].
      * unfold registry. cbn [files set_cur set_files].
        rewrite lookup_insert_eq. reflexivity.
      * intros q Hq. cbn [files set_cur set_files].
        rewrite lookup_insert_ne by congruence. apply Hq0, Hq.
      * exact Hl0.
    + apply (execute_sql_ok PRJ_FILE _ true (set_cur [] w0) f0); auto.
      unfold create_table. rewrite Hp0. reflexivity.
Qed.

(** Opening the registry never drops a project: with a healthy engine
    [ProjectDatabase()] succeeds, keeps the projects table it finds with all
    its rows, creates an empty one when there is none, and changes no other
    file; opening it again changes nothing. *)
Theorem ProjectDatabase_init_keeps_the_registry w :
  healthy w ->
  let w' := final (ProjectDatabase.init w) in
  result (ProjectDatabase.init w) = Ret tt
  /\ registry w' = Some (match registry w with
                         | Some t => t
                         | None => empty_table
                         end)
  /\ (forall q, q <> PRJ_FILE -> files w' !! q = files w !! q)
  /\ registry (final (ProjectDatabase.init w')) = registry w'.
Proof.
  intros Hh w'. subst w'.
  destruct (ProjectDatabase_init_run w Hh) as (w1 & -> & Hh1 & Hreg & Hq & _).
  cbn [result final fst snd].
  destruct (ProjectDatabase_init_run w1 Hh1) as (w2 & -> & _ & Hreg2 & _ & _).
  cbn [result final fst snd]. rewrite Hreg2, Hreg. auto.
Qed.

Lemma ProjectDatabase_init_keeps_the_registry_witness :
  result (ProjectDatabase.init two_projects) = Ret tt
  /\ registry (final (ProjectDatabase.init two_projects)) = registry two_projects
  /\ registry (final (ProjectDatabase.init (fresh []))) = Some empty_table.
Proof.
  destruct (ProjectDatabase_init_keeps_the_registry two_projects eq_refl)
    as (H1 & H2 & _).
  destruct (ProjectDatabase_init_keeps_the_registry (fresh []) eq_refl)
    as (_ & H3 & _).
  split; [exact H1|]. split; [exact H2|exact H3].
Defined.

(** [get_projects] lists every registry row once, with its four columns,
    ascending on the project name. *)
Theorem get_projects_lists_every_project_by_name w t :
  healthy w -> registry w = Some t ->
  exists l,
    result (ProjectDatabase.get_projects w)
    = Ret (map ProjectDatabase.project_row l)
    /\ Permutation l (rows t)
    /\ ascending_on project_name l.
Proof.
  intros Hh Hreg. apply registry_inv in Hreg as (f & Hf & Ht).
  unfold ProjectDatabase.get_projects.
  rewrite (select_fetchall_run PRJ_FILE projects _ true w f t Hh Hf Ht).
  exists (order_by project_name (rows t)). split; [reflexivity|]. split.
  - apply order_by_perm.
  - apply order_by_ascending.
Qed.

Lemma get_projects_lists_every_project_by_name_witness :
  exists l,
    result (ProjectDatabase.get_projects two_projects)
    = Ret (map ProjectDatabase.project_row l)
    /\ Permutation l
         [ {| project_id := 1; project_name := "zeta corp"; project_note := None;
              project_dbfile := "data/3a7f00c41b92.sqlite" |};
           {| project_id := 2; project_name := "acme"; project_note := None;
              project_dbfile := "data/d05e8812f6a3.sqlite" |} ]
    /\ ascending_on project_name l.
Proof.
  apply (get_projects_lists_every_project_by_name two_projects
           {| rows := [ {| project_id := 1; project_name := "zeta corp";
                           project_note := None;
                           project_dbfile := "data/3a7f00c41b92.sqlite" |};
                        {| project_id := 2; project_name := "acme";
                           project_note := None;
                           project_dbfile := "data/d05e8812f6a3.sqlite" |} ];
              last_rowid := 2 |}).
  - reflexivity.
  - vm_compute. reflexivity.
Defined.

(** ** The project lookup of the front end *)

Lemma get_project_shape pid w x w' :
  ProjectDatabase.get_project pid w = (Ret x, w') ->
  x = PyNone \/ x = PyTuple [VNone; VNone]
  \/ exists p, x = PyRow [("name", VStr (project_name p));
                          ("dbfile", VStr (project_dbfile p));
                          ("note", of_option (project_note p))].
Proof.
  unfold ProjectDatabase.get_project. intros H.
  apply bind_inv in H as [(b & w1 & Hx & H) | (e & _ & [=])].
  destruct b.
  - apply execute_sql_true_inv in Hx as (f & rs & f' & _ & Hs & ->).
    unfold select in Hs. destruct (projects f) as [t|]; [|discriminate].
    injection Hs as <- <-.
    unfold bind, Database.fetchone, ret in H. cbn [cur set_cur] in H.
    destruct (List.filter _ (rows t)) as [|p rest]; simpl in H;
      injection H as <- _; eauto.
  - injection H as <- _. auto.
Qed.

(** The store path the handlers [import_scan] and [get_project] read off
    the project row is never [None]: the lookup either raises or yields a
    string, so the redirection that [get_project] keeps for a [None] store
    path is never taken. *)
Theorem project_dbfile_of_is_never_None pid w :
  result (project_dbfile_of pid w) <> Ret VNone.
Proof.
  destruct (project_dbfile_of pid w) as [o w'] eqn:E.
  unfold result. cbn [fst]. unfold project_dbfile_of in E.
  apply bind_inv in E as [(u & w1 & _ & E) | (e & _ & ->)]; [|discriminate].
  apply bind_inv in E as [(prj & w2 & Hget & E) | (e & _ & ->)]; [|discriminate].
  apply get_project_shape in Hget as [-> | [-> | (p & ->)]];
    simpl in E; injection E as <- _; discriminate.
Qed.

(** For an id that is not in the registry the lookup raises [TypeError]:
    [get_project] answers [None], and the handlers subscript it. *)
Theorem project_dbfile_of_unknown_project_raises pid w :
  healthy w ->
  (forall t, registry w = Some t ->
             forall p, In p (rows t) -> project_id p <> pid) ->
  result (project_dbfile_of pid w) = Raise TypeError.
Proof.
  intros Hh Hno. unfold project_dbfile_of.
  destruct (ProjectDatabase_init_run w Hh) as (w1 & Hinit & Hh1 & Hreg & _ & _).
  rewrite (bind_run _ _ w tt w1 Hinit).
  pose proof Hreg as Hreg1.
  apply registry_inv in Hreg1 as (f & Hf & Ht).
  unfold ProjectDatabase.get_project.
  unfold bind at 1. unfold bind at 1.
  rewrite (execute_select_ok PRJ_FILE projects _ true w1 f _ Hh1 Hf Ht).
  rewrite filter_none; [reflexivity|].
  intros p Hp. apply Z.eqb_neq.
  destruct (registry w) as [t|] eqn:E; [|destruct Hp].
  apply (Hno t eq_refl p Hp).
Qed.

Lemma project_dbfile_of_unknown_project_raises_witness :
  result (project_dbfile_of 7 two_projects) = Raise TypeError.
Proof.
  apply (project_dbfile_of_unknown_project_raises 7 two_projects).
  - reflexivity.
  - intros t Ht p Hp.
    assert (E : map project_id (rows t) = [1; 2]).
    { vm_compute in Ht. injection Ht as <-. reflexivity. }
    apply (in_map project_id) in Hp. rewrite E in Hp.
    destruct Hp as [<-|[<-|[]]]; discriminate.
Defined.

(** ** Isolation of the stores *)

(** What is written to one store is not seen in another: creating a host
    and an item in the store [fn] changes neither the host listing nor the
    summary of a store at another path. *)
Theorem writes_to_one_store_are_invisible_in_another
    valid fn fn' ip port protocol note hash w th ti th' ti' :
  fn <> fn' -> healthy w ->
  hosts_at fn w th -> items_at fn w ti ->
  hosts_at fn' w th' -> items_at fn' w ti' ->
  valid_ip valid ip = None -> valid_port valid port = None ->
  valid_protocol valid protocol = None -> valid_hash valid hash = None ->
  let w' := final ((HostDatabase.create_host fn ip ;;;
                    ItemDatabase.create_item valid fn ip port protocol note hash) w) in
  result (HostDatabase.get_hosts fn' w') = result (HostDatabase.get_hosts fn' w)
  /\ result (ItemDatabase.get_summary fn' w')
     = result (ItemDatabase.get_summary fn' w).
Proof.
  intros Hne Hh (f & Hf & Hth) (f0 & Hf0 & Hti) Hth' Hti' H1 H2 H3 H4 w'.
  assert (f0 = f) by congruence. subst f0.
  subst w'. unfold HostDatabase.create_host.
  rewrite (bind_run _ _ w true _
             (execute_modify_ok fn hosts set_hosts _ true w f th Hh Hf Hth)).
  set (w1 := set_cur [] _).
  rewrite (create_item_run valid fn ip port protocol note hash w1 _ ti Hh
             (lookup_insert_eq _ _ _) Hti H1 H2 H3 H4).
  cbn [final snd]. set (w2 := set_cur [] _).
  assert (Hfiles : files w2 !! fn' = files w !! fn').
  { unfold w2, w1. cbn [files set_cur set_files].
    rewrite !lookup_insert_ne by exact Hne. reflexivity. }
  assert (Hth2 : hosts_at fn' w2 th').
  { destruct Hth' as (g & Hg & Hgt). exists g. rewrite Hfiles. auto. }
  assert (Hti2 : items_at fn' w2 ti').
  { destruct Hti' as (g & Hg & Hgt). exists g. rewrite Hfiles. auto. }
  split.
  - rewrite (get_hosts_run fn' w2 th' Hh Hth2), (get_hosts_run fn' w th' Hh Hth').
    reflexivity.
  - rewrite (get_summary_run fn' w2 ti' Hh Hti2), (get_summary_run fn' w ti' Hh Hti').
    reflexivity.
Qed.

Lemma writes_to_one_store_are_invisible_in_another_witness :
  let w' := final ((HostDatabase.create_host "data/q.sqlite" "10.0.0.9" ;;;
                    ItemDatabase.create_item port_range_only "data/q.sqlite"
                      "10.0.0.9" 22 "tcp" "ssh" "e5") two_stores) in
  result (HostDatabase.get_hosts "data/p.sqlite" w')
  = result (HostDatabase.get_hosts "data/p.sqlite" two_stores)
  /\ result (ItemDatabase.get_summary "data/p.sqlite" w')
     = result (ItemDatabase.get_summary "data/p.sqlite" two_stores).
Proof.
  apply (writes_to_one_store_are_invisible_in_another port_range_only
           "data/q.sqlite" "data/p.sqlite" "10.0.0.9" 22 "tcp" "ssh" "e5"
           two_stores empty_table empty_table
           {| rows := [ {| host_id := 1; host_ip := "10.0.0.1";
                           host_note := Some "dc" |} ];
              last_rowid := 1 |}
           {| rows := [ {| item_id := 1; item_ip := "10.0.0.1"; item_port := 80;
                           item_protocol := "tcp"; item_note := "http";
                           item_hash := "a1" |};
                        {| item_id := 2; item_ip := "10.0.0.7"; item_port := 22;
                           item_protocol := "tcp"; item_note := "ssh";
                           item_hash := "b2" |};
                        {| item_id := 3; item_ip := "10.0.0.1"; item_port := 53;
                           item_protocol := "udp"; item_note := "dns";
                           item_hash := "c3" |} ];
              last_rowid := 3 |}).
  - discriminate.
  - reflexivity.
  - eexists. split; vm_compute; reflexivity.
  - eexists. split; vm_compute; reflexivity.
  - eexists. split; vm_compute; reflexivity.
  - eexists. split; vm_compute; reflexivity.
  - reflexivity.
  - reflexivity.
  - reflexivity.
  - reflexivity.
Defined.

(** ** Queries on a failing engine *)

(** When the engine fails the statement, every query answers with the
    value of its failure branch and does not raise: the empty list for the
    listings, the empty string for [get_host_note], the empty dict for
    [get_item], [None] for [get_attack] and [get_attack_by_name], the pair
    [(None, None)] for [get_project].  Ids are within the 64-bit range. *)
Theorem queries_answer_empty_when_the_engine_fails fn w fl :
  faults w = true :: fl ->
  forall ip hash name i, int64 i ->
    result (HostDatabase.get_hosts fn w) = Ret []
    /\ result (HostDatabase.get_host_ip fn ip w) = Ret []
    /\ result (HostDatabase.get_host_notes fn w) = Ret []
    /\ result (HostDatabase.get_host_note fn ip w) = Ret (VStr "")
    /\ result (ItemDatabase.get_item fn i w) = Ret ItemEmptyDict
    /\ result (ItemDatabase.get_items_by_ip fn ip w) = Ret []
    /\ result (ItemDatabase.get_items_by_hash fn hash w) = Ret []
    /\ result (ItemDatabase.get_items_by_keywords fn (Some [name]) w) = Ret []
    /\ result (AttackDatabase.get_attack fn i w) = Ret None
    /\ result (AttackDatabase.get_attack_by_name fn name w) = Ret None
    /\ result (AttackDatabase.get_attacks fn w) = Ret []
    /\ result (AttackDatabase.get_attack_notes fn w) = Ret []
    /\ result (ImportDatabase.get_imported_files fn w) = Ret []
    /\ result (ProjectDatabase.get_projects w) = Ret []
    /\ result (ProjectDatabase.get_project i w) = Ret (PyTuple [VNone; VNone])
    /\ result (Database.get_tables fn w) = Ret [].
Proof.
  intros Hfl ip hash name i _.
  unfold HostDatabase.get_hosts, HostDatabase.get_host_ip,
    HostDatabase.get_host_notes, HostDatabase.get_host_note,
    ItemDatabase.get_item, ItemDatabase.get_items_by_ip,
    ItemDatabase.get_items_by_hash, ItemDatabase.get_items_by_keywords,
    AttackDatabase.get_attack, AttackDatabase.get_attack_by_name,
    AttackDatabase.get_attacks, AttackDatabase.get_attack_notes,
    ImportDatabase.get_imported_files, ProjectDatabase.get_projects,
    ProjectDatabase.get_project, Database.get_tables.
  cbv zeta.
  repeat split;
    rewrite (bind_run _ _ w false _ (execute_sql_fault _ _ _ w fl Hfl));
    reflexivity.
Qed.

Lemma queries_answer_empty_when_the_engine_fails_witness :
  result (HostDatabase.get_hosts "data/p.sqlite" engine_down) = Ret []
  /\ result (HostDatabase.get_host_note "data/p.sqlite" "10.0.0.1" engine_down)
     = Ret (VStr "")
  /\ result (ItemDatabase.get_items_by_ip "data/p.sqlite" "10.0.0.1" engine_down)
     = Ret [].
Proof.
  assert (Hi : int64 1) by (unfold int64; lia).
  destruct (queries_answer_empty_when_the_engine_fails "data/p.sqlite"
              engine_down [true] eq_refl "10.0.0.1" "a1" "smb" 1 Hi)
    as (H1 & _ & _ & H4 & _ & H6 & _).
  auto.
Defined.

(** When the engine fails both statements of [get_stats], the dataset is
    reported as empty, whatever it holds. *)
Theorem get_stats_reports_zero_when_the_engine_fails fn w fl :
  faults w = true :: true :: fl ->
  result (ScanDatabase.get_stats fn w) = Ret "Hosts: 0  Attacks 0".
Proof.
  intros Hfl. unfold ScanDatabase.get_stats.
  unfold HostDatabase.get_hosts, AttackDatabase.get_attacks.
  unfold bind at 1. unfold bind at 1.
  rewrite (execute_sql_fault fn _ true w (true :: fl) Hfl).
  unfold bind at 1. unfold bind at 1. unfold ret at 1.
  rewrite (execute_sql_fault fn _ false (set_faults (true :: fl) w) fl eq_refl).
  reflexivity.
Qed.

Lemma get_stats_reports_zero_when_the_engine_fails_witness :
  result (ScanDatabase.get_stats "data/p.sqlite" engine_down)
  = Ret "Hosts: 0  Attacks 0".
Proof.
  apply (get_stats_reports_zero_when_the_engine_fails "data/p.sqlite"
           engine_down []).
  reflexivity.
Defined.
